(** * Employee-feedback API (main.py): model and verified properties

    The service keeps two tables, [Company] and [Feedback], and exposes
    four handlers over them.  The handlers are translated here as
    computations in a small state-and-exception monad over a database
    session; Python's [float] is IEEE-754 binary64, taken from the
    Standard Library's executable specification [SpecFloat]. *)

From Stdlib Require Import ZArith List Bool Lia String Ascii.
From Stdlib Require Import DecimalString SpecFloat.
From Stdlib Require Import Permutation.
Import ListNotations.

Open Scope string_scope.
Open Scope Z_scope.

(** ** Python numbers *)

Module Py.

(** Exceptions the handlers and the operations they call can raise. *)
Inductive exn :=
| HTTPException (status_code : Z) (detail : string)
| ValidationError (fields : list string)
| ZeroDivisionError
| OverflowError
| InvalidRequestError.

Inductive outcome (A : Type) :=
| Return (a : A)
| Raise (e : exn).
Arguments Return {A} a.
Arguments Raise {A} e.

(** [float] is binary64: 53 bits of precision, infinities at 2^1024. *)
Definition prec : Z := 53.
Definition emax : Z := 1024.
Definition float := spec_float.

(** An [int] operand of [/], as an exact (unnormalised) binary number. *)
Definition float_of_int (z : Z) : float :=
  match z with
  | Z0 => S754_zero false
  | Zpos p => S754_finite false p 0
  | Zneg p => S754_finite true p 0
  end.

(** [a / b] on two [int]s: the correctly rounded quotient;
    [ZeroDivisionError] for [b = 0], [OverflowError] when the
    quotient is too large for a float. *)
Definition int_truediv (a b : Z) : outcome float :=
  if b =? 0 then Raise ZeroDivisionError
  else match SFdiv prec emax (float_of_int a) (float_of_int b) with
       | S754_infinity _ => Raise OverflowError
       | q => Return q
       end.

(** Nearest integer to [num / den], ties to the even one ([den > 0]). *)
Definition round_half_even (num den : Z) : Z :=
  let q := num / den in
  let r := num mod den in
  match 2 * r ?= den with
  | Lt => q
  | Gt => q + 1
  | Eq => if Z.even q then q else q + 1
  end.

(** The integer nearest to [m * 2^e * 10^ndigits], ties to even: the
    decimal digits [round] keeps of the magnitude of a finite float. *)
Definition scaled (m : positive) (e : Z) (ndigits : Z) : Z :=
  let num := Zpos m * 10 ^ ndigits in
  match e with
  | Zneg p => round_half_even num (2 ^ Zpos p)
  | _ => num * 2 ^ e
  end.

(** [round(x, ndigits)] for a small non-negative [ndigits]: the exact
    binary value is rounded to [ndigits] decimals, ties to even, and the
    decimal obtained is converted back to the nearest float.  Zeros,
    infinities and NaN round to themselves; the sign is kept. *)
Definition round (x : float) (ndigits : Z) : float :=
  match x with
  | S754_finite s m e =>
      match scaled m e ndigits with
      | Zpos k => SFdiv prec emax (S754_finite s k 0)
                    (float_of_int (10 ^ ndigits))
      | _ => S754_zero s
      end
  | _ => x
  end.

(** [sum] of a list of [int]s. *)
Definition sum (l : list Z) : Z := fold_left Z.add l 0.

(** [len] *)
Definition len {A : Type} (l : list A) : Z := Z.of_nat (List.length l).

(** [str] of an [int], and of an optional one ([None] prints as such). *)
Definition str (z : Z) : string := NilZero.string_of_int (Z.to_int z).

Definition str_opt (o : option Z) : string :=
  match o with
  | Some z => str z
  | None => "None"
  end.

End Py.

Import Py.

(** ** Data model *)

(** class FeedbackType(str, enum.Enum) *)
Inductive FeedbackType := RECLAMACAO | ELOGIO.

Definition FeedbackType_value (t : FeedbackType) : string :=
  match t with
  | RECLAMACAO => "reclamacao"
  | ELOGIO => "elogio"
  end.

(** Lookup of an enum member by value, as request validation does. *)
Definition FeedbackType_of_value (s : string) : option FeedbackType :=
  if String.eqb s "reclamacao" then Some RECLAMACAO
  else if String.eqb s "elogio" then Some ELOGIO
  else None.

(** class Company(SQLModel, table=True) *)
Module Company.
Record t := mk {
  id : option Z;
  name : string;
  industry : option string
}.
End Company.

(** class Feedback(FeedbackBase, table=True): the four fields of
    [FeedbackBase], then [id] and [timestamp]. *)
Module Feedback.
Record t := mk {
  type : FeedbackType;
  rating : Z;
  comment : option string;
  company_id : option Z;
  id : option Z;
  timestamp : Z
}.

Definition with_id (f : t) (i : option Z) : t :=
  mk (type f) (rating f) (comment f) (company_id f) i (timestamp f).
End Feedback.

(** class FeedbackCreate(FeedbackBase) *)
Module FeedbackCreate.
Record t := mk {
  type : FeedbackType;
  rating : Z;
  comment : option string;
  company_id : option Z
}.
End FeedbackCreate.

(** class Reputation(BaseModel) *)
Module Reputation.
Record t := mk {
  company_id : Z;
  company_name : string;
  average_rating : option float;
  total_feedbacks : Z;
  feedback_with_rating_count : Z
}.
End Reputation.

(** The constraint [Field(ge=1, le=5)] on [rating]. *)
Definition rating_ok (r : Z) : bool := (1 <=? r) && (r <=? 5).

(** ** Request validation

    The body of [POST /feedbacks] as it arrives: every field may be
    missing (or null); a field that is present has the JSON type of its
    declaration. *)
Module Body.
Record t := mk {
  type : option string;
  rating : option Z;
  comment : option string;
  company_id : option Z
}.
End Body.

Definition validate_type (o : option string) : option FeedbackType :=
  match o with
  | Some s => FeedbackType_of_value s
  | None => None
  end.

Definition validate_rating (o : option Z) : option Z :=
  match o with
  | Some r => if rating_ok r then Some r else None
  | None => None
  end.

(** Validation of a body against [FeedbackCreate]: [type] and [rating]
    are required, [comment] and [company_id] default to [None].  All the
    failing fields are reported. *)
Definition validate_FeedbackCreate (b : Body.t) : outcome FeedbackCreate.t :=
  match validate_type (Body.type b), validate_rating (Body.rating b) with
  | Some t, Some r =>
      Return (FeedbackCreate.mk t r (Body.comment b) (Body.company_id b))
  | None, Some _ => Raise (ValidationError ["type"])
  | Some _, None => Raise (ValidationError ["rating"])
  | None, None => Raise (ValidationError ["type"; "rating"])
  end.

(** [Feedback.model_validate(feedback_data)]: the fields are validated
    again, [id] is left unset and [timestamp] takes the clock's reading. *)
Definition Feedback_model_validate (d : FeedbackCreate.t) (now : Z)
  : outcome Feedback.t :=
  if rating_ok (FeedbackCreate.rating d)
  then Return (Feedback.mk (FeedbackCreate.type d) (FeedbackCreate.rating d)
                 (FeedbackCreate.comment d) (FeedbackCreate.company_id d)
                 None now)
  else Raise (ValidationError ["rating"]).

(** ** The store and the session *)

Record Database := {
  companies : list Company.t;
  feedbacks : list Feedback.t
}.

(** A [Session(engine)]: the committed state of the store and the
    [Feedback] objects added through this session, in the order they
    were added; one whose [id] is unset waits for the next commit. *)
Record Session := {
  db : Database;
  tracked : list Feedback.t
}.

(** [get_session]: a fresh [Session(engine)] on the store. *)
Definition get_session (d : Database) : Session :=
  {| db := d; tracked := [] |}.

(** Handlers run in a session and either return or raise. *)
Definition M (A : Type) : Type := Session -> outcome A * Session.

Definition ret {A : Type} (a : A) : M A := fun s => (Return a, s).

Definition bind {A B : Type} (m : M A) (k : A -> M B) : M B :=
  fun s =>
    match m s with
    | (Return a, s') => k a s'
    | (Raise e, s') => (Raise e, s')
    end.

Definition raise {A : Type} (e : exn) : M A := fun s => (Raise e, s).

Definition lift {A : Type} (o : outcome A) : M A := fun s => (o, s).

Declare Scope session_scope.
Delimit Scope session_scope with session.
Notation "x <- m ;; k" := (bind m (fun x => k))
  (at level 100, m at next level, right associativity) : session_scope.
Notation "m ;;; k" := (bind m (fun _ => k))
  (at level 100, right associativity) : session_scope.

(** The SQL comparison [column = k]: never true of NULL. *)
Definition sql_eq (column : option Z) (k : Z) : bool :=
  match column with
  | Some v => v =? k
  | None => false
  end.

(** The store's integers are signed 64-bit: the rows hold no other, and
    the driver refuses to bind any other as a statement parameter. *)
Definition is_int64 (k : Z) : bool := (- 2 ^ 63 <=? k) && (k <? 2 ^ 63).

(** A key the driver can bind: NULL, or an integer of 64 bits. *)
Definition bindable (ident : option Z) : bool :=
  match ident with
  | Some k => is_int64 k
  | None => true
  end.

(** The row of [company] with this primary key, if any: no row has the
    all-NULL key, nor a key outside 64 bits. *)
Definition Company_by_key (d : Database) (ident : option Z)
  : option Company.t :=
  match ident with
  | Some k =>
      if is_int64 k
      then find (fun c => sql_eq (Company.id c) k) (companies d)
      else None
  | None => None
  end.

(** [session.get(Company, ident)]: the row with this key, [None] when
    there is none; binding a key outside 64 bits raises [OverflowError]. *)
Definition session_get_Company (ident : option Z) : M (option Company.t) :=
  fun s =>
    if bindable ident
    then (Return (Company_by_key (db s) ident), s)
    else (Raise OverflowError, s).

(** [session.exec(select(Company)).all()] *)
Definition select_Company : M (list Company.t) :=
  fun s => (Return (companies (db s)), s).

(** [session.exec(select(Feedback).where(Feedback.company_id == k)).all()];
    [k] is bound as a parameter, like the key of [session.get]. *)
Definition Feedback_where_company_id (d : Database) (k : Z)
  : list Feedback.t :=
  filter (fun f => sql_eq (Feedback.company_id f) k) (feedbacks d).

Definition select_Feedback_where_company_id (k : Z) : M (list Feedback.t) :=
  fun s =>
    if is_int64 k
    then (Return (Feedback_where_company_id (db s) k), s)
    else (Raise OverflowError, s).

(** [session.exec(select(Feedback.rating).where(Feedback.company_id == k)).all()]:
    the column's values as Python reads them, [None] standing for NULL;
    [rating] is declared [int] with no default, so the column is NOT NULL. *)
Definition select_rating_where_company_id (k : Z) : M (list (option Z)) :=
  fun s =>
    if is_int64 k
    then (Return (map (fun f => Some (Feedback.rating f))
                    (Feedback_where_company_id (db s) k)), s)
    else (Raise OverflowError, s).

(** [session.add(obj)]; the result is the position under which the
    session tracks the object, which stands for the Python reference. *)
Definition session_add (obj : Feedback.t) : M nat :=
  fun s =>
    (Return (List.length (tracked s)),
     {| db := db s; tracked := tracked s ++ [obj] |}).

(** The key the store gives a new row: 1 in an empty table, else one
    more than the largest key in use. *)
Definition key_of (f : Feedback.t) : Z :=
  match Feedback.id f with
  | Some k => k
  | None => 0
  end.

Definition next_id (table : list Feedback.t) : Z :=
  match table with
  | [] => 1
  | f :: rest => 1 + fold_left Z.max (map key_of rest) (key_of f)
  end.

(** Flush: every tracked object with no [id] yet is inserted and
    receives its key; the others are left as they are. *)
Fixpoint flush (objs : list Feedback.t) (table : list Feedback.t)
  : list Feedback.t * list Feedback.t :=
  match objs with
  | [] => ([], table)
  | o :: rest =>
      match Feedback.id o with
      | Some _ =>
          let (rest', table') := flush rest table in (o :: rest', table')
      | None =>
          let row := Feedback.with_id o (Some (next_id table)) in
          let (rest', table') := flush rest (table ++ [row]) in
          (row :: rest', table')
      end
  end.

(** [session.commit()] *)
Definition session_commit : M unit :=
  fun s =>
    let (objs, table) := flush (tracked s) (feedbacks (db s)) in
    (Return tt,
     {| db := {| companies := companies (db s); feedbacks := table |};
        tracked := objs |}).

(** [session.refresh(obj)]: the object's row is read again by its key. *)
Definition session_refresh (ref : nat) : M Feedback.t :=
  fun s =>
    match nth_error (tracked s) ref with
    | Some o =>
        match Feedback.id o with
        | Some k =>
            match find (fun f => sql_eq (Feedback.id f) k)
                    (feedbacks (db s)) with
            | Some row => (Return row, s)
            | None => (Raise InvalidRequestError, s)
            end
        | None => (Raise InvalidRequestError, s)
        end
    | None => (Raise InvalidRequestError, s)
    end.

(** [[r for r in rs if r is not None]] *)
Fixpoint not_None (rs : list (option Z)) : list Z :=
  match rs with
  | [] => []
  | Some r :: rest => r :: not_None rest
  | None :: rest => not_None rest
  end.

(** ** The handlers *)

Definition HTTP_404_NOT_FOUND : Z := 404.
Definition HTTP_201_CREATED : Z := 201.

Local Open Scope session_scope.

(** GET /companies *)
Definition get_companies : M (list Company.t) :=
  companies <- select_Company ;;
  ret companies.

(** GET /companies/{company_id}/feedbacks *)
Definition get_feedbacks_for_company (company_id : Z) : M (list Feedback.t) :=
  company <- session_get_Company (Some company_id) ;;
  match company with
  | None => raise (HTTPException HTTP_404_NOT_FOUND "Empresa não encontrada")
  | Some _ =>
      feedbacks <- select_Feedback_where_company_id company_id ;;
      ret feedbacks
  end.

(** POST /feedbacks *)
Definition create_feedback (feedback_data : FeedbackCreate.t) (now : Z)
  : M Feedback.t :=
  company <- session_get_Company (FeedbackCreate.company_id feedback_data) ;;
  match company with
  | None =>
      raise (HTTPException HTTP_404_NOT_FOUND
               ("Empresa com ID "
                  ++ str_opt (FeedbackCreate.company_id feedback_data)
                  ++ " não encontrada."))
  | Some _ =>
      db_feedback <- lift (Feedback_model_validate feedback_data now) ;;
      ref <- session_add db_feedback ;;
      session_commit ;;;
      db_feedback <- session_refresh ref ;;
      ret db_feedback
  end.

(** GET /companies/{company_id}/reputation *)
Definition get_company_reputation (company_id : Z) : M Reputation.t :=
  company <- session_get_Company (Some company_id) ;;
  match company with
  | None => raise (HTTPException HTTP_404_NOT_FOUND "Empresa não encontrada")
  | Some company =>
      ratings_result <- select_rating_where_company_id company_id ;;
      all_feedbacks <- select_Feedback_where_company_id company_id ;;
      let total_feedbacks := len all_feedbacks in
      let ratings := not_None ratings_result in
      let feedback_with_rating_count := len ratings in
      average_rating <-
        (if feedback_with_rating_count >? 0
         then q <- lift (int_truediv (sum ratings) feedback_with_rating_count) ;;
              ret (Some (round q 2))
         else ret None) ;;
      ret (Reputation.mk company_id (Company.name company) average_rating
             total_feedbacks feedback_with_rating_count)
  end.

(** GET / *)
Definition read_root : M string :=
  ret "Bem-vindo à API de Feedback de Funcionários! (Usando SQLite)".

Local Close Scope session_scope.

(** [lifespan], the part before [yield]: an empty [company] table is
    seeded with three companies. *)
Definition lifespan (d : Database) : Database :=
  match companies d with
  | _ :: _ => d
  | [] =>
      {| companies :=
           [ Company.mk (Some 1) "Empresa Alpha DB" (Some "Tecnologia");
             Company.mk (Some 2) "Consultoria Beta DB" (Some "Consultoria");
             Company.mk (Some 3) "Varejo Gamma DB" (Some "Varejo") ];
         feedbacks := feedbacks d |}
  end.

(** ** The application: requests, responses and routing *)

Inductive request :=
| GET_companies
| GET_company_feedbacks (company_id : Z)
| POST_feedbacks (body : Body.t)
| GET_company_reputation (company_id : Z)
| GET_root.

Inductive content :=
| Companies (l : list Company.t)
| Feedbacks (l : list Feedback.t)
| Created (f : Feedback.t)
| Reputed (r : Reputation.t)
| Message (m : string)
| Detail (detail : string)
| Unprocessable (fields : list string)
| InternalServerError.

Record response := {
  status_code : Z;
  body : content
}.

(** What the framework answers when the handler returns [a], with the
    route's status code, or raises. *)
Definition respond {A : Type} (status : Z) (wrap : A -> content)
  (o : outcome A) : response :=
  match o with
  | Return a => {| status_code := status; body := wrap a |}
  | Raise (HTTPException c d) => {| status_code := c; body := Detail d |}
  | Raise _ => {| status_code := 500; body := InternalServerError |}
  end.

(** [Depends(get_session)]: the handler runs in a fresh session, closed
    when the request ends; what was not committed is dropped. *)
Definition with_session {A : Type} (h : M A) (d : Database)
  : outcome A * Database :=
  let (o, s) := h (get_session d) in (o, db s).

Definition is_GET (r : request) : bool :=
  match r with
  | POST_feedbacks _ => false
  | _ => true
  end.

(** One request served on the store [d], the clock reading [now]. *)
Definition serve (now : Z) (r : request) (d : Database)
  : response * Database :=
  match r with
  | GET_companies =>
      let (o, d') := with_session get_companies d in
      (respond 200 Companies o, d')
  | GET_company_feedbacks company_id =>
      let (o, d') := with_session (get_feedbacks_for_company company_id) d in
      (respond 200 Feedbacks o, d')
  | POST_feedbacks b =>
      match validate_FeedbackCreate b with
      | Return feedback_data =>
          let (o, d') := with_session (create_feedback feedback_data now) d in
          (respond HTTP_201_CREATED Created o, d')
      | Raise (ValidationError fields) =>
          ({| status_code := 422; body := Unprocessable fields |}, d)
      | Raise _ => ({| status_code := 500; body := InternalServerError |}, d)
      end
  | GET_company_reputation company_id =>
      let (o, d') := with_session (get_company_reputation company_id) d in
      (respond 200 Reputed o, d')
  | GET_root =>
      let (o, d') := with_session read_root d in
      (respond 200 Message o, d')
  end.

(** The store after a sequence of requests, each with its clock reading. *)
Fixpoint run (trace : list (Z * request)) (d : Database) : Database :=
  match trace with
  | [] => d
  | (now, r) :: rest => run rest (snd (serve now r d))
  end.

Definition empty_db : Database := {| companies := []; feedbacks := [] |}.

(** Stores the running service can be in: the seeded store, then any
    number of requests. *)
Definition reachable (d : Database) : Prop :=
  exists trace, d = run trace (lifespan empty_db).

(** ** Notions the properties are stated with *)

(** The key resolves to a row of [company]. *)
Definition resolves (d : Database) (ident : option Z) : bool :=
  match Company_by_key d ident with
  | Some _ => true
  | None => false
  end.

(** Every stored rating satisfies [Field(ge=1, le=5)]. *)
Definition ratings_valid (d : Database) : Prop :=
  forallb (fun f => rating_ok (Feedback.rating f)) (feedbacks d) = true.

(** Every stored feedback names a company that exists. *)
Definition references_existing_company (d : Database) : Prop :=
  forallb (fun f => resolves d (Feedback.company_id f)) (feedbacks d) = true.

(** The ratings of the feedback rows of company [k], in table order. *)
Definition ratings_of (d : Database) (k : Z) : list Z :=
  map Feedback.rating (Feedback_where_company_id d k).

(** The row a successful [create_feedback] inserts and returns. *)
Definition new_row (feedback_data : FeedbackCreate.t) (now : Z) (d : Database)
  : Feedback.t :=
  Feedback.mk (FeedbackCreate.type feedback_data)
    (FeedbackCreate.rating feedback_data)
    (FeedbackCreate.comment feedback_data)
    (FeedbackCreate.company_id feedback_data)
    (Some (next_id (feedbacks d))) now.

Definition insert_Feedback (row : Feedback.t) (d : Database) : Database :=
  {| companies := companies d; feedbacks := feedbacks d ++ [row] |}.

(** What [get_company_reputation] computes once the company is found. *)
Definition reputation_of (d : Database) (k : Z) (c : Company.t)
  : outcome Reputation.t :=
  let n := len (ratings_of d k) in
  if n >? 0
  then match int_truediv (sum (ratings_of d k)) n with
       | Return q =>
           Return (Reputation.mk k (Company.name c) (Some (round q 2))
                     (len (Feedback_where_company_id d k)) n)
       | Raise e => Raise e
       end
  else Return (Reputation.mk k (Company.name c) None
                 (len (Feedback_where_company_id d k)) n).

(** What a handler raises when the key resolves to no company: the 404
    of its own when the lookup could be made, the driver's error when
    the key could not be bound. *)
Definition lookup_failure (ident : option Z) (detail : string) : exn :=
  if bindable ident
  then HTTPException HTTP_404_NOT_FOUND detail
  else OverflowError.

(** The responses by status. *)
Definition not_found (detail : string) : response :=
  {| status_code := 404; body := Detail detail |}.

Definition created (row : Feedback.t) : response :=
  {| status_code := 201; body := Created row |}.

Definition unprocessable (fields : list string) : response :=
  {| status_code := 422; body := Unprocessable fields |}.

Definition internal_server_error : response :=
  {| status_code := 500; body := InternalServerError |}.

(** The message of [create_feedback]'s 404. *)
Definition create_detail (ident : option Z) : string :=
  "Empresa com ID " ++ str_opt ident ++ " não encontrada.".

(** The float 4.0, that is 2^52 * 2^-50. *)
Definition four : float := S754_finite false 4503599627370496 (-50).

(** A store to try the properties on: the seeded companies, three
    feedbacks rated 4, 5 and 3 for the second one, one rated 1 for the
    third, none for the first. *)
Definition demo_body (r c : Z) : Body.t :=
  Body.mk (Some "elogio") (Some r) None (Some c).

Definition demo_db : Database :=
  run [(10, POST_feedbacks (demo_body 4 2));
       (11, POST_feedbacks (demo_body 5 2));
       (12, POST_feedbacks (demo_body 3 2));
       (13, POST_feedbacks (demo_body 1 3))]
    (lifespan empty_db).

Definition alpha : Company.t :=
  Company.mk (Some 1) "Empresa Alpha DB" (Some "Tecnologia").

Definition beta : Company.t :=
  Company.mk (Some 2) "Consultoria Beta DB" (Some "Consultoria").

Definition gamma : Company.t :=
  Company.mk (Some 3) "Varejo Gamma DB" (Some "Varejo").

(** Eight ratings whose mean, 3.125, is a tie between 3.12 and 3.13, and
    forty whose mean is 2.675, which no float equals. *)
Definition tie_ratings : list Z := [3; 3; 3; 3; 3; 3; 3; 4].

Definition near_tie_ratings : list Z :=
  repeat 3 27 ++ repeat 2 13.

(** The float mean of a non-empty list of ratings, rounded as
    [get_company_reputation] does. *)
Definition rounded_mean (ratings : list Z) : outcome float :=
  match int_truediv (sum ratings) (len ratings) with
  | Return q => Return (round q 2)
  | Raise e => Raise e
  end.

(** ** Notions of the further properties *)

(** The companies [lifespan] seeds. *)
Definition seeded : list Company.t := [alpha; beta; gamma].

(** Every stored feedback has a key and no two share one. *)
Definition keys_unique (d : Database) : Prop :=
  Forall (fun f => Feedback.id f <> None) (feedbacks d)
  /\ NoDup (map key_of (feedbacks d)).

(** The requests that lead from the seeded store to [demo_db]. *)
Definition demo_trace : list (Z * request) :=
  [(10, POST_feedbacks (demo_body 4 2));
   (11, POST_feedbacks (demo_body 5 2));
   (12, POST_feedbacks (demo_body 3 2));
   (13, POST_feedbacks (demo_body 1 3))].


(** The demo store with the second company's feedbacks in another order. *)
Definition demo_db_reordered : Database :=
  run [(30, POST_feedbacks (demo_body 3 2));
       (31, POST_feedbacks (demo_body 1 3));
       (32, POST_feedbacks (demo_body 5 2));
       (33, POST_feedbacks (demo_body 4 2))]
    (lifespan empty_db).

(** A store where every feedback of the third company is rated 4. *)
Definition uniform_db : Database :=
  run [(40, POST_feedbacks (demo_body 4 3));
       (41, POST_feedbacks (demo_body 4 3));
       (42, POST_feedbacks (demo_body 2 1));
       (43, POST_feedbacks (demo_body 4 3))]
    (lifespan empty_db).

(** ** Reading the rounding bits

    Position of the rational [a / b] in the unit interval above the
    integer [shr_m mrs], as the round and sticky bits encode it. *)
Definition located (a b : Z) (mrs : shr_record) : Prop :=
  let m := shr_m mrs in
  match shr_r mrs, shr_s mrs with
  | false, false => a = m * b
  | false, true => m * b < a /\ 2 * a < (2 * m + 1) * b
  | true, false => 2 * a = (2 * m + 1) * b
  | true, true => (2 * m + 1) * b < 2 * a /\ a < (m + 1) * b
  end.

(** A handler run in a fresh session, its reads and binds unfolded. *)
Ltac in_session handler :=
  unfold with_session, handler, bind, get_session, session_get_Company,
    select_Company, select_Feedback_where_company_id,
    select_rating_where_company_id;
  cbn [db tracked].

(** Powers of two with a closed exponent, evaluated. *)
Ltac eval_pow2 :=
  repeat match goal with
    | |- context [2 ^ ?k] =>
        let v := eval vm_compute in (2 ^ k) in change (2 ^ k) with v
    | H : context [2 ^ ?k] |- _ =>
        let v := eval vm_compute in (2 ^ k) in change (2 ^ k) with v in H
    end.

(** * Properties *)

(** ** Binary64 division and rounding *)

Section Binary64.

(** Bit lengths. *)
Lemma digits2_pos_size (p : positive) : digits2_pos p = Pos.size p.
Proof. induction p; simpl; congruence. Qed.

Lemma Zdigits2_pos_bounds (p : positive) :
  2 ^ (Zdigits2 (Zpos p) - 1) <= Zpos p < 2 ^ Zdigits2 (Zpos p).
Proof.
  unfold Zdigits2. rewrite digits2_pos_size.
  pose proof (Pos.size_gt p) as Hgt.
  pose proof (Pos.size_le p) as Hle.
  apply Pos2Z.pos_lt_pos in Hgt. apply Pos2Z.pos_le_pos in Hle.
  rewrite Pos2Z.inj_pow in Hgt, Hle.
  replace (Zpos (Pos.size p)) with (Z.succ (Zpos (Pos.size p) - 1)) in Hle at 1 by lia.
  rewrite Z.pow_succ_r in Hle by lia.
  change (Zpos p~0) with (2 * Zpos p) in Hle.
  lia.
Qed.

Lemma Zdigits2_le (m n : Z) : 0 <= m < 2 ^ n -> 0 <= n -> Zdigits2 m <= n.
Proof.
  intros [H0 H] Hn. destruct m as [|p|p]; simpl; try lia.
  destruct (Zdigits2_pos_bounds p) as [Hlo _]. simpl Zdigits2 in Hlo.
  destruct (Z_le_gt_dec (Zpos (digits2_pos p)) n) as [|Hgt]; trivial.
  exfalso.
  assert (2 ^ n <= 2 ^ (Zpos (digits2_pos p) - 1)) by (apply Z.pow_le_mono_r; lia).
  lia.
Qed.

Lemma Zdigits2_ge (m n : Z) : 2 ^ n <= m -> 0 <= n -> n + 1 <= Zdigits2 m.
Proof.
  intros H Hn.
  assert (0 < 2 ^ n) by (apply Z.pow_pos_nonneg; lia).
  destruct m as [|p|p]; try lia.
  destruct (Zdigits2_pos_bounds p) as [_ Hhi].
  destruct (Z_le_gt_dec (n + 1) (Zdigits2 (Zpos p))) as [|Hgt]; trivial.
  exfalso.
  assert (2 ^ Zdigits2 (Zpos p) <= 2 ^ n) by (apply Z.pow_le_mono_r; lia).
  lia.
Qed.

(** Shifting right keeps track of where the rational lies. *)
Lemma shr_1_located (a b : Z) (mrs : shr_record) :
  0 <= shr_m mrs -> 0 < b -> located a b mrs ->
  located a (2 * b) (shr_1 mrs) /\ 0 <= shr_m (shr_1 mrs).
Proof.
  destruct mrs as [m r s]. unfold located. simpl shr_m. simpl shr_r. simpl shr_s.
  intros Hm Hb H.
  destruct m as [|[p|p|]|p]; try lia;
    destruct r, s; cbn [shr_1 shr_m shr_r shr_s orb]; lia.
Qed.

Lemma iter_shr_1_located (p : positive) :
  forall (a b : Z) (mrs : shr_record),
    0 <= shr_m mrs -> 0 < b -> located a b mrs ->
    located a (b * 2 ^ Zpos p) (iter_pos shr_1 p mrs)
    /\ 0 <= shr_m (iter_pos shr_1 p mrs).
Proof.
  induction p as [p IH|p IH|]; intros a b mrs Hm Hb H; cbn [iter_pos].
  - destruct (shr_1_located a b mrs Hm Hb H) as [H1 Hm1].
    destruct (IH a (2 * b) _ Hm1 ltac:(lia) H1) as [H2 Hm2].
    assert (Hp : 0 < 2 ^ Zpos p) by (apply Z.pow_pos_nonneg; lia).
    destruct (IH a (2 * b * 2 ^ Zpos p) _ Hm2 ltac:(nia) H2) as [H3 Hm3].
    split; trivial.
    replace (b * 2 ^ Zpos p~1) with (2 * b * 2 ^ Zpos p * 2 ^ Zpos p); trivial.
    change (Zpos p~1) with (2 * Zpos p + 1). rewrite Z.pow_add_r, Z.pow_mul_r by lia.
    change (2 ^ 2) with 4.
    replace (4 ^ Zpos p) with (2 ^ Zpos p * 2 ^ Zpos p).
    + ring.
    + rewrite <- Z.pow_mul_l. reflexivity.
  - assert (Hp : 0 < 2 ^ Zpos p) by (apply Z.pow_pos_nonneg; lia).
    destruct (IH a b _ Hm Hb H) as [H2 Hm2].
    destruct (IH a (b * 2 ^ Zpos p) _ Hm2 ltac:(nia) H2) as [H3 Hm3].
    split; trivial.
    replace (b * 2 ^ Zpos p~0) with (b * 2 ^ Zpos p * 2 ^ Zpos p); trivial.
    change (Zpos p~0) with (2 * Zpos p). rewrite Z.pow_mul_r by lia.
    change (2 ^ 2) with 4.
    replace (4 ^ Zpos p) with (2 ^ Zpos p * 2 ^ Zpos p).
    + ring.
    + rewrite <- Z.pow_mul_l. reflexivity.
  - replace (b * 2 ^ 1) with (2 * b) by (change (2 ^ 1) with 2; ring).
    apply shr_1_located; trivial.
Qed.

Lemma loc_of_record_of_loc (m : Z) (l : location) :
  loc_of_shr_record (shr_record_of_loc m l) = l.
Proof. destruct l as [|[ | | ]]; reflexivity. Qed.

Lemma shr_m_record_of_loc (m : Z) (l : location) :
  shr_m (shr_record_of_loc m l) = m.
Proof. destruct l as [|[ | | ]]; reflexivity. Qed.

(** Rounding to nearest lands within half a unit of the rational. *)
Lemma round_nearest_even_located (a b : Z) (mrs : shr_record) :
  0 < b -> located a b mrs ->
  let M := round_nearest_even (shr_m mrs) (loc_of_shr_record mrs) in
  - b <= 2 * (M * b - a) <= b /\ shr_m mrs <= M <= shr_m mrs + 1.
Proof.
  destruct mrs as [m r s]. unfold located. cbn [shr_m shr_r shr_s].
  intros Hb H. destruct r, s; cbn [loc_of_shr_record round_nearest_even];
    try destruct (Z.even m); lia.
Qed.

Lemma new_location_located (n q r a : Z) :
  0 < n -> 0 <= r < n -> a = n * q + r ->
  located a n (shr_record_of_loc q (new_location n r)).
Proof.
  intros Hn Hr Ha. unfold new_location.
  destruct (Z.even n) eqn:Hev.
  - unfold new_location_even. destruct (Z.eqb_spec r 0) as [->|Hr0].
    + unfold located; simpl; lia.
    + destruct (Z.compare_spec (2 * r) n); unfold located;
        cbn [shr_record_of_loc shr_m shr_r shr_s]; lia.
  - unfold new_location_odd. destruct (Z.eqb_spec r 0) as [->|Hr0].
    + unfold located; simpl; lia.
    + assert (Hodd : Z.odd n = true) by (rewrite <- Z.negb_even, Hev; reflexivity).
      apply Z.odd_spec in Hodd. destruct Hodd as [k Hk].
      destruct (Z.compare_spec (2 * r + 1) n); unfold located;
        cbn [shr_record_of_loc shr_m shr_r shr_s]; lia.
Qed.

Lemma Zdigits2_53 (m : Z) : 2 ^ 52 <= m < 2 ^ 53 -> Zdigits2 m = 53.
Proof.
  intros H.
  pose proof (Zdigits2_le m 53 ltac:(lia) ltac:(lia)).
  pose proof (Zdigits2_ge m 52 ltac:(lia) ltac:(lia)). lia.
Qed.

Lemma Zdigits2_54 (m : Z) : 2 ^ 53 <= m < 2 ^ 54 -> Zdigits2 m = 54.
Proof.
  intros H.
  pose proof (Zdigits2_le m 54 ltac:(lia) ltac:(lia)).
  pose proof (Zdigits2_ge m 53 ltac:(lia) ltac:(lia)). lia.
Qed.

(** A 53-bit mantissa is kept; a 54-bit one loses its last bit. *)
Lemma shr_fexp_53 (m e : Z) (l : location) :
  Zdigits2 m = 53 -> -1074 <= e ->
  shr_fexp prec emax m e l = (shr_record_of_loc m l, e).
Proof.
  intros Hd He. unfold shr_fexp. rewrite Hd.
  replace (fexp prec emax (53 + e) - e) with 0; [reflexivity|].
  unfold fexp, emin, prec, emax. lia.
Qed.

Lemma shr_fexp_54 (m e : Z) (l : location) :
  Zdigits2 m = 54 -> -1075 <= e ->
  shr_fexp prec emax m e l = (shr_1 (shr_record_of_loc m l), e + 1).
Proof.
  intros Hd He. unfold shr_fexp. rewrite Hd.
  replace (fexp prec emax (54 + e) - e) with 1; [reflexivity|].
  unfold fexp, emin, prec, emax. lia.
Qed.

(** Second pass of [binary_round_aux]: a rounded mantissa in
    [2^52, 2^53] is final, except 2^53 itself, renormalised to 2^52. *)
Lemma shr_fexp_rounded (M e : Z) :
  2 ^ 52 <= M <= 2 ^ 53 -> -1074 <= e ->
  exists M' e', shr_fexp prec emax M e loc_Exact
                = ({| shr_m := M'; shr_r := false; shr_s := false |}, e')
    /\ 2 ^ 52 <= M' < 2 ^ 53
    /\ ((M' = M /\ e' = e) \/ (M = 2 * M' /\ e' = e + 1)).
Proof.
  intros HM He.
  destruct (Z.eq_dec M (2 ^ 53)) as [->|Hne].
  - exists (2 ^ 52), (e + 1). rewrite shr_fexp_54 by (trivial; lia).
    split; [reflexivity|]. split; [lia|]. right. split; [reflexivity|lia].
  - exists M, e. rewrite shr_fexp_53 by (try apply Zdigits2_53; lia).
    split; [reflexivity|]. split; [lia|]. left. split; reflexivity.
Qed.

(** [binary_round_aux] on a 53- or 54-bit mantissa, the rational
    [a / b] located just above it: the result is a normal number whose
    mantissa is within half a unit of [a / b], rescaled. *)
Lemma binary_round_aux_normal (s : bool) (m e : Z) (l : location) (a b : Z) :
  0 < b -> 2 ^ 52 <= m < 2 ^ 54 -> -1074 <= e <= 969 ->
  located a b (shr_record_of_loc m l) ->
  exists M t,
    binary_round_aux prec emax s m e l = S754_finite s M (e + t)
    /\ 2 ^ 52 <= Zpos M < 2 ^ 53
    /\ 0 <= t <= 2
    /\ - (b * 2 ^ t) <= 2 * (Zpos M * (b * 2 ^ t) - a) <= b * 2 ^ t.
Proof.
  intros Hb Hm He Hloc.
  assert (Hstage1 : exists mrs t1,
             shr_fexp prec emax m e l = (mrs, e + t1)
             /\ 0 <= t1 <= 1 /\ located a (b * 2 ^ t1) mrs
             /\ 2 ^ 52 <= shr_m mrs < 2 ^ 53).
  { destruct (Z_lt_ge_dec m (2 ^ 53)) as [Hlt|Hge].
    - exists (shr_record_of_loc m l), 0.
      rewrite shr_fexp_53 by (try apply Zdigits2_53; lia).
      rewrite Z.add_0_r, shr_m_record_of_loc.
      change (2 ^ 0) with 1. rewrite Z.mul_1_r. repeat split; trivial; lia.
    - exists (shr_1 (shr_record_of_loc m l)), 1.
      rewrite shr_fexp_54 by (try apply Zdigits2_54; lia).
      change (2 ^ 1) with 2.
      destruct (shr_1_located a b (shr_record_of_loc m l)) as [H1 _]; trivial.
      { rewrite shr_m_record_of_loc. lia. }
      replace (b * 2) with (2 * b) by ring.
      repeat split; trivial; try lia;
        destruct l as [|[ | | ]]; destruct m as [|[p|p|]|p];
        cbn [shr_record_of_loc shr_1 shr_m]; lia. }
  destruct Hstage1 as (mrs & t1 & Hs1 & Ht1 & Hloc1 & Hm1).
  assert (Hb1 : 0 < b * 2 ^ t1).
  { assert (0 < 2 ^ t1) by (apply Z.pow_pos_nonneg; lia). nia. }
  destruct (round_nearest_even_located a (b * 2 ^ t1) mrs Hb1 Hloc1)
    as [Hnear HM1].
  set (M1 := round_nearest_even (shr_m mrs) (loc_of_shr_record mrs)) in *.
  destruct (shr_fexp_rounded M1 (e + t1) ltac:(lia) ltac:(lia))
    as (M' & e' & Hs2 & HM' & Hcase).
  unfold binary_round_aux. rewrite Hs1. fold M1. rewrite Hs2.
  cbn [shr_m].
  destruct M' as [|M'|M']; try lia.
  assert (He' : e' <= 971) by lia.
  replace (e' <=? emax - prec) with true
    by (symmetry; apply Z.leb_le; unfold emax, prec; lia).
  destruct Hcase as [[HM2 ->]|[HM2 ->]].
  - exists M', t1. repeat split; trivial; lia.
  - exists M', (t1 + 1). rewrite Z.add_assoc.
    rewrite Z.pow_add_r by lia. change (2 ^ 1) with 2.
    repeat split; trivial; try lia.
Qed.

Lemma pow2_lt_inv (x y : Z) : 0 <= y -> 2 ^ x < 2 ^ y -> x < y.
Proof.
  intros Hy H. destruct (Z_lt_ge_dec x y) as [|Hge]; trivial. exfalso.
  assert (2 ^ y <= 2 ^ x) by (apply Z.pow_le_mono_r; lia). lia.
Qed.

Lemma shiftl_by_match (m s : Z) :
  0 <= s ->
  match s with
  | Zpos _ => Z.shiftl m s
  | Z0 => m
  | Zneg _ => 0
  end = m * 2 ^ s.
Proof.
  intros Hs. destruct s as [|s|s]; try lia.
  apply Z.shiftl_mul_pow2. lia.
Qed.

(** The quotient [SFdiv] hands to rounding, for two positive integers
    whose bit lengths differ by [delta]: 53 - delta more bits are taken
    and the remainder tells where the exact quotient lies. *)
Lemma SFdiv_core_binary_ints (p n : positive) (delta : Z) :
  delta = Zdigits2 (Zpos p) - Zdigits2 (Zpos n) -> 0 <= delta <= 53 ->
  exists q l,
    SFdiv_core_binary prec emax (Zpos p) 0 (Zpos n) 0 = (q, delta - 53, l)
    /\ located (Zpos p * 2 ^ (53 - delta)) (Zpos n) (shr_record_of_loc q l)
    /\ 2 ^ 52 <= q < 2 ^ 54.
Proof.
  intros Hd Hdelta. unfold SFdiv_core_binary. cbv zeta.
  replace (Zdigits2 (Zpos p) + 0 - (Zdigits2 (Zpos n) + 0)) with delta by lia.
  replace (Z.min (fexp prec emax delta) (0 - 0)) with (delta - 53)
    by (unfold fexp, emin, prec, emax; lia).
  replace (0 - 0 - (delta - 53)) with (53 - delta) by lia.
  rewrite shiftl_by_match by lia.
  pose proof (Z_div_mod (Zpos p * 2 ^ (53 - delta)) (Zpos n) ltac:(lia)) as Hdiv.
  destruct (Z.div_eucl (Zpos p * 2 ^ (53 - delta)) (Zpos n)) as [q r].
  destruct Hdiv as [Ha Hr].
  exists q, (new_location (Zpos n) r). split; [reflexivity|]. split.
  - apply new_location_located; trivial; lia.
  - destruct (Zdigits2_pos_bounds p) as [Hp1 Hp2].
    destruct (Zdigits2_pos_bounds n) as [Hn1 Hn2].
    set (d1 := Zdigits2 (Zpos p)) in *. set (d2 := Zdigits2 (Zpos n)) in *.
    assert (Hd1 : 1 <= d1) by (unfold d1; simpl; lia).
    assert (Hd2 : 1 <= d2) by (unfold d2; simpl; lia).
    assert (HS : 0 < 2 ^ (53 - delta)) by (apply Z.pow_pos_nonneg; lia).
    assert (Hk : 2 ^ (d1 - 1) * 2 ^ (53 - delta) = 2 ^ 53 * 2 ^ (d2 - 1)).
    { rewrite <- !Z.pow_add_r by lia. f_equal. lia. }
    assert (Hp2' : 2 ^ d1 = 2 * 2 ^ (d1 - 1)).
    { replace d1 with (Z.succ (d1 - 1)) at 1 by lia. apply Z.pow_succ_r. lia. }
    assert (Hn2' : 2 ^ d2 = 2 * 2 ^ (d2 - 1)).
    { replace d2 with (Z.succ (d2 - 1)) at 1 by lia. apply Z.pow_succ_r. lia. }
    rewrite Hp2' in Hp2. rewrite Hn2' in Hn2. clear Hp2' Hn2'.
    remember (2 ^ (d1 - 1)) as P1. remember (2 ^ (d2 - 1)) as N1.
    remember (2 ^ (53 - delta)) as S.
    change (2 ^ 52) with 4503599627370496.
    change (2 ^ 53) with 9007199254740992 in Hk.
    change (2 ^ 54) with 18014398509481984.
    assert (Hlo : P1 * S <= Zpos p * S) by (apply Z.mul_le_mono_nonneg_r; lia).
    assert (Hhi : Zpos p * S < 2 * P1 * S) by (apply Z.mul_lt_mono_pos_r; lia).
    split.
    + assert (H : Zpos n * 4503599627370496 < Zpos n * (q + 1)) by lia.
      apply Z.mul_lt_mono_pos_l in H; lia.
    + assert (H : Zpos n * q < Zpos n * 18014398509481984) by lia.
      apply Z.mul_lt_mono_pos_l in H; lia.
Qed.

(** The float quotient of a sum of [n] ratings between 1 and 5 by [n]:
    no error is raised, the result is a normal float between 1 and 5 and
    its mantissa is within half a unit of the exact quotient. *)
Lemma int_truediv_mean (p n : Z) :
  0 < n -> n <= p <= 5 * n ->
  exists M E,
    int_truediv p n = Return (S754_finite false M E)
    /\ 2 ^ 52 <= Zpos M < 2 ^ 53
    /\ - 53 <= E <= - 50
    /\ - n <= 2 * (Zpos M * n - p * 2 ^ (- E)) <= n.
Proof.
  intros Hn Hp.
  destruct n as [|n|n]; try lia. destruct p as [|p|p]; try lia.
  set (delta := Zdigits2 (Zpos p) - Zdigits2 (Zpos n)).
  assert (Hdelta : 0 <= delta <= 3).
  { destruct (Zdigits2_pos_bounds p) as [Hp1 Hp2].
    destruct (Zdigits2_pos_bounds n) as [Hn1 Hn2].
    assert (1 <= Zdigits2 (Zpos p)) by (simpl; lia).
    assert (1 <= Zdigits2 (Zpos n)) by (simpl; lia).
    split.
    - assert (Zdigits2 (Zpos n) - 1 < Zdigits2 (Zpos p))
        by (apply pow2_lt_inv; lia).
      unfold delta; lia.
    - assert (Zdigits2 (Zpos p) - 1 < Zdigits2 (Zpos n) + 3).
      { apply pow2_lt_inv; try lia.
        rewrite Z.pow_add_r by lia. change (2 ^ 3) with 8. lia. }
      unfold delta; lia. }
  destruct (SFdiv_core_binary_ints p n delta eq_refl ltac:(lia))
    as (q & l & Hcore & Hloc & Hq).
  destruct (binary_round_aux_normal false q (delta - 53) l
              (Zpos p * 2 ^ (53 - delta)) (Zpos n)
              ltac:(lia) Hq ltac:(lia) Hloc)
    as (M & t & Hround & HM & Ht & Hnear).
  exists M, (delta - 53 + t).
  assert (Hres : int_truediv (Zpos p) (Zpos n)
                 = Return (S754_finite false M (delta - 53 + t))).
  { unfold int_truediv. cbn [Z.eqb float_of_int SFdiv xorb].
    rewrite Hcore, Hround. reflexivity. }
  split; [exact Hres|]. split; [exact HM|].
  replace (- (delta - 53 + t)) with (53 - delta - t) by lia.
  assert (Hcases : (delta = 0 \/ delta = 1 \/ delta = 2 \/ delta = 3)
                   /\ (t = 0 \/ t = 1 \/ t = 2)) by lia.
  assert (HMn : 2 ^ 52 * Zpos n <= Zpos M * Zpos n)
    by (apply Z.mul_le_mono_nonneg_r; lia).
  clearbody delta. clear Hcore Hround Hres Hloc Hq.
  destruct Hcases as [[-> | [-> | [-> | ->]]] [-> | [-> | ->]]];
    eval_pow2; lia.
Qed.

Lemma round_half_even_near (num den : Z) :
  0 < den ->
  let k := round_half_even num den in
  - den <= 2 * (k * den - num) <= den
  /\ (2 * (k * den - num) = den \/ 2 * (k * den - num) = - den
      -> Z.even k = true).
Proof.
  intros Hden. unfold round_half_even.
  pose proof (Z.div_mod num den ltac:(lia)) as Hdm.
  pose proof (Z.mod_pos_bound num den Hden) as Hr.
  destruct (Z.compare_spec (2 * (num mod den)) den) as [Heq|Hlt|Hgt].
  - destruct (Z.even (num / den)) eqn:Hev.
    + split; [lia|]. intros _. exact Hev.
    + split; [lia|]. intros _. rewrite Z.even_add, Hev. reflexivity.
  - split; [lia|]. intros [H|H]; lia.
  - split; [lia|]. intros [H|H]; lia.
Qed.

(** Rounding the float mean to two decimals gives the float [K / 100],
    [K] a nearest integer to 100 times the exact mean. *)
Lemma round_mean (p n : Z) (M : positive) (E : Z) :
  0 < n < 2 ^ 43 -> n <= p <= 5 * n ->
  2 ^ 52 <= Zpos M < 2 ^ 53 -> - 53 <= E <= - 50 ->
  - n <= 2 * (Zpos M * n - p * 2 ^ (- E)) <= n ->
  exists K,
    100 <= K <= 500
    /\ - n <= 2 * (K * n - 100 * p) <= n
    /\ int_truediv K 100 = Return (round (S754_finite false M E) 2).
Proof.
  intros Hn Hp HM HE Hnear.
  destruct E as [|E|E]; try lia.
  set (K := round_half_even (Zpos M * 10 ^ 2) (2 ^ Zpos E)).
  assert (HD : 0 < 2 ^ Zpos E) by (apply Z.pow_pos_nonneg; lia).
  destruct (round_half_even_near (Zpos M * 10 ^ 2) (2 ^ Zpos E) HD)
    as [HK _].
  fold K in HK. change (10 ^ 2) with 100 in HK.
  change (- Zneg E) with (Zpos E) in Hnear.
  assert (HKn : - (2 ^ Zpos E * n)
                <= 2 * (K * n * 2 ^ Zpos E - 100 * (Zpos M * n))
                <= 2 ^ Zpos E * n).
  { assert (H1 : (2 * (100 * Zpos M - K * 2 ^ Zpos E)) * n
                 <= 2 ^ Zpos E * n)
      by (apply Z.mul_le_mono_nonneg_r; lia).
    assert (H2 : (2 * (K * 2 ^ Zpos E - 100 * Zpos M)) * n
                 <= 2 ^ Zpos E * n)
      by (apply Z.mul_le_mono_nonneg_r; lia).
    lia. }
  assert (Hcases : Zpos E = 50 \/ Zpos E = 51 \/ Zpos E = 52 \/ Zpos E = 53)
    by lia.
  assert (Hgoal : - n <= 2 * (K * n - 100 * p) <= n).
  { change (2 ^ 43) with 8796093022208 in Hn.
    change (2 ^ 52) with 4503599627370496 in HM.
    change (2 ^ 53) with 9007199254740992 in HM.
    clear HD HK. clearbody K.
    destruct Hcases as [H | [H | [H | H]]]; rewrite H in *;
      eval_pow2; lia. }
  assert (HKr : 100 <= K <= 500).
  { split.
    - destruct (Z_le_gt_dec 100 K) as [|Hgt]; trivial. exfalso.
      assert (K * n <= 99 * n) by (apply Z.mul_le_mono_nonneg_r; lia). lia.
    - destruct (Z_le_gt_dec K 500) as [|Hgt]; trivial. exfalso.
      assert (501 * n <= K * n) by (apply Z.mul_le_mono_nonneg_r; lia). lia. }
  exists K. split; [exact HKr|]. split; [exact Hgoal|].
  destruct (int_truediv_mean K 100 ltac:(lia) ltac:(lia))
    as (M' & E' & Hdiv & _).
  unfold round, scaled. fold K. change (10 ^ 2) with 100.
  unfold int_truediv in *. clear HK HKn Hgoal.
  destruct K as [|k|k]; try lia.
  change (float_of_int (Zpos k)) with (S754_finite false k 0) in *.
  change (100 =? 0) with false in *. cbv iota in *.
  destruct (SFdiv prec emax (S754_finite false k 0) (float_of_int 100));
    solve [reflexivity | discriminate].
Qed.

(** The two steps together, as [get_company_reputation] chains them. *)
Lemma average_rating_spec (p n : Z) :
  0 < n -> n <= p <= 5 * n ->
  exists q,
    int_truediv p n = Return q
    /\ (n < 2 ^ 43 ->
        exists K, 100 <= K <= 500
                  /\ - n <= 2 * (K * n - 100 * p) <= n
                  /\ int_truediv K 100 = Return (round q 2)).
Proof.
  intros Hn Hp.
  destruct (int_truediv_mean p n Hn Hp) as (M & E & Hdiv & HM & HE & Hnear).
  exists (S754_finite false M E). split; [exact Hdiv|].
  intros Hlt. apply (round_mean p n M E); trivial. lia.
Qed.

End Binary64.

(** ** The handlers, step by step *)

Section Handlers.

(** Ratings read from the store and their sum. *)
Lemma not_None_map_Some (rows : list Feedback.t) :
  not_None (map (fun f => Some (Feedback.rating f)) rows)
  = map Feedback.rating rows.
Proof. induction rows as [|f rows IH]; simpl; congruence. Qed.

Lemma len_map {A B : Type} (f : A -> B) (l : list A) : len (map f l) = len l.
Proof. unfold len. rewrite length_map. reflexivity. Qed.

Lemma fold_left_add_bounds (l : list Z) :
  (forall r, In r l -> 1 <= r <= 5) ->
  forall a, a + len l <= fold_left Z.add l a <= a + 5 * len l.
Proof.
  unfold len. induction l as [|r l IH]; intros Hl a.
  - simpl. lia.
  - cbn [fold_left List.length].
    specialize (IH (fun x Hx => Hl x (or_intror Hx)) (a + r)).
    pose proof (Hl r (or_introl eq_refl)). lia.
Qed.

Lemma sum_bounds (l : list Z) :
  (forall r, In r l -> 1 <= r <= 5) -> len l <= sum l <= 5 * len l.
Proof. intros H. unfold sum. pose proof (fold_left_add_bounds l H 0). lia. Qed.

Lemma rating_ok_iff (r : Z) : rating_ok r = true <-> 1 <= r <= 5.
Proof. unfold rating_ok. rewrite andb_true_iff, !Z.leb_le. tauto. Qed.

Lemma ratings_of_valid (d : Database) (k : Z) :
  ratings_valid d -> forall r, In r (ratings_of d k) -> 1 <= r <= 5.
Proof.
  unfold ratings_valid, ratings_of, Feedback_where_company_id.
  intros Hv r Hr. apply in_map_iff in Hr. destruct Hr as (f & <- & Hf).
  apply filter_In in Hf. destruct Hf as [Hf _].
  rewrite forallb_forall in Hv. apply rating_ok_iff. apply Hv. exact Hf.
Qed.

(** A key that resolves is one the driver binds. *)
Lemma Company_by_key_is_int64 (d : Database) (k : Z) (c : Company.t) :
  Company_by_key d (Some k) = Some c -> is_int64 k = true.
Proof.
  unfold Company_by_key. destruct (is_int64 k); [reflexivity|discriminate].
Qed.

Lemma Company_by_key_bindable (d : Database) (ident : option Z)
  (c : Company.t) :
  Company_by_key d ident = Some c -> bindable ident = true.
Proof.
  destruct ident as [k|]; [apply Company_by_key_is_int64|discriminate].
Qed.

(** Each handler on a company that is found, and on one that is not. *)
Lemma get_company_reputation_found (d : Database) (k : Z) (c : Company.t) :
  Company_by_key d (Some k) = Some c ->
  with_session (get_company_reputation k) d = (reputation_of d k c, d).
Proof.
  intros Hc. pose proof (Company_by_key_is_int64 d k c Hc) as Hk.
  in_session get_company_reputation.
  unfold reputation_of, ratings_of, bindable. rewrite Hk, Hc.
  cbv beta iota. cbn [db]. rewrite ?Hk. cbv beta iota. cbn [db].
  rewrite not_None_map_Some.
  destruct (len (map Feedback.rating (Feedback_where_company_id d k)) >? 0).
  - unfold lift. cbv beta iota.
    destruct (int_truediv _ _); reflexivity.
  - reflexivity.
Qed.

Lemma get_company_reputation_missing (d : Database) (k : Z) :
  Company_by_key d (Some k) = None ->
  with_session (get_company_reputation k) d
  = (Raise (lookup_failure (Some k) "Empresa não encontrada"), d).
Proof.
  intros Hc. in_session get_company_reputation. unfold lookup_failure.
  destruct (bindable (Some k)); [rewrite Hc|]; reflexivity.
Qed.

Lemma get_feedbacks_for_company_found (d : Database) (k : Z) (c : Company.t) :
  Company_by_key d (Some k) = Some c ->
  with_session (get_feedbacks_for_company k) d
  = (Return (Feedback_where_company_id d k), d).
Proof.
  intros Hc. pose proof (Company_by_key_is_int64 d k c Hc) as Hk.
  in_session get_feedbacks_for_company. unfold bindable.
  rewrite Hk, Hc. cbv beta iota. cbn [db]. rewrite ?Hk. reflexivity.
Qed.

Lemma get_feedbacks_for_company_missing (d : Database) (k : Z) :
  Company_by_key d (Some k) = None ->
  with_session (get_feedbacks_for_company k) d
  = (Raise (lookup_failure (Some k) "Empresa não encontrada"), d).
Proof.
  intros Hc. in_session get_feedbacks_for_company. unfold lookup_failure.
  destruct (bindable (Some k)); [rewrite Hc|]; reflexivity.
Qed.

Lemma create_feedback_missing (d : Database) (fd : FeedbackCreate.t) (now : Z) :
  Company_by_key d (FeedbackCreate.company_id fd) = None ->
  with_session (create_feedback fd now) d
  = (Raise (lookup_failure (FeedbackCreate.company_id fd)
              ("Empresa com ID " ++ str_opt (FeedbackCreate.company_id fd)
                 ++ " não encontrada.")), d).
Proof.
  intros Hc. in_session create_feedback. unfold lookup_failure.
  destruct (bindable (FeedbackCreate.company_id fd)); [rewrite Hc|];
    reflexivity.
Qed.

(** Keys: every row's key is below the next key. *)
Lemma fold_left_max_ge (l : list Z) :
  forall a, a <= fold_left Z.max l a
            /\ forall x, In x l -> x <= fold_left Z.max l a.
Proof.
  induction l as [|y l IH]; intros a; cbn [fold_left].
  - split; [lia|]. intros x [].
  - destruct (IH (Z.max a y)) as [H1 H2]. split; [lia|].
    intros x [<-|Hx]; [lia|]. apply H2, Hx.
Qed.

Lemma key_lt_next_id (table : list Feedback.t) (f : Feedback.t) :
  In f table -> key_of f < next_id table.
Proof.
  destruct table as [|g rest]; [intros []|].
  unfold next_id. destruct (fold_left_max_ge (map key_of rest) (key_of g))
    as [H1 H2].
  intros [<-|Hf]; [lia|].
  specialize (H2 (key_of f) (in_map key_of rest f Hf)). lia.
Qed.

Lemma find_fresh_key (table : list Feedback.t) (row : Feedback.t) :
  Feedback.id row = Some (next_id table) ->
  find (fun f => sql_eq (Feedback.id f) (next_id table)) (table ++ [row])
  = Some row.
Proof.
  intros Hrow.
  assert (Hnone : forall l, (forall f, In f l -> key_of f < next_id table) ->
            find (fun f => sql_eq (Feedback.id f) (next_id table)) (l ++ [row])
            = Some row).
  { induction l as [|g l IH]; intros Hl.
    - cbn. rewrite Hrow. cbn. rewrite Z.eqb_refl. reflexivity.
    - cbn [app find]. pose proof (Hl g (or_introl eq_refl)) as Hg.
      unfold key_of in Hg. unfold sql_eq at 1.
      destruct (Feedback.id g) as [kg|].
      + destruct (Z.eqb_spec kg (next_id table)); [lia|].
        apply IH. intros f Hf. apply Hl. right. exact Hf.
      + apply IH. intros f Hf. apply Hl. right. exact Hf. }
  apply Hnone. intros f Hf. apply key_lt_next_id, Hf.
Qed.

Lemma create_feedback_found (d : Database) (fd : FeedbackCreate.t) (now : Z)
  (c : Company.t) :
  Company_by_key d (FeedbackCreate.company_id fd) = Some c ->
  rating_ok (FeedbackCreate.rating fd) = true ->
  with_session (create_feedback fd now) d
  = (Return (new_row fd now d), insert_Feedback (new_row fd now d) d).
Proof.
  intros Hc Hr.
  pose proof (Company_by_key_bindable d _ c Hc) as Hb.
  in_session create_feedback.
  unfold lift, Feedback_model_validate, session_add, session_commit,
    session_refresh.
  cbn [db tracked]. rewrite Hb, Hc, Hr. cbv beta iota. cbn [db tracked].
  cbn [app flush Feedback.id Feedback.with_id List.length nth_error
         db tracked feedbacks Feedback.type Feedback.rating Feedback.comment
         Feedback.company_id Feedback.timestamp].
  fold (new_row fd now d).
  rewrite find_fresh_key by reflexivity. reflexivity.
Qed.

Lemma validate_FeedbackCreate_Return (b : Body.t) (fd : FeedbackCreate.t) :
  validate_FeedbackCreate b = Return fd ->
  validate_type (Body.type b) = Some (FeedbackCreate.type fd)
  /\ Body.rating b = Some (FeedbackCreate.rating fd)
  /\ rating_ok (FeedbackCreate.rating fd) = true
  /\ FeedbackCreate.comment fd = Body.comment b
  /\ FeedbackCreate.company_id fd = Body.company_id b.
Proof.
  unfold validate_FeedbackCreate, validate_rating.
  destruct (validate_type (Body.type b)) as [t|];
    destruct (Body.rating b) as [r|]; try discriminate;
    try (destruct (rating_ok r) eqn:Hr; try discriminate).
  intros H. injection H as <-. cbn. auto.
Qed.

(** [POST /feedbacks], case by case. *)
Lemma serve_POST_feedbacks (now : Z) (b : Body.t) (d : Database) :
  serve now (POST_feedbacks b) d
  = match validate_FeedbackCreate b with
    | Return fd =>
        match Company_by_key d (FeedbackCreate.company_id fd) with
        | Some _ => (created (new_row fd now d),
                     insert_Feedback (new_row fd now d) d)
        | None =>
            (if bindable (FeedbackCreate.company_id fd)
             then not_found (create_detail (FeedbackCreate.company_id fd))
             else internal_server_error, d)
        end
    | Raise (ValidationError fields) => (unprocessable fields, d)
    | Raise _ => ({| status_code := 500; body := InternalServerError |}, d)
    end.
Proof.
  unfold serve. destruct (validate_FeedbackCreate b) as [fd|e] eqn:Hv;
    [|reflexivity].
  apply validate_FeedbackCreate_Return in Hv.
  destruct Hv as (_ & _ & Hr & _ & _).
  destruct (Company_by_key d (FeedbackCreate.company_id fd)) as [c|] eqn:Hc.
  - rewrite (create_feedback_found d fd now c Hc Hr). reflexivity.
  - rewrite (create_feedback_missing d fd now Hc). unfold lookup_failure.
    destruct (bindable (FeedbackCreate.company_id fd)); reflexivity.
Qed.

Lemma validate_FeedbackCreate_exn (b : Body.t) (e : exn) :
  validate_FeedbackCreate b = Raise e -> exists fields, e = ValidationError fields.
Proof.
  unfold validate_FeedbackCreate.
  destruct (validate_type (Body.type b)), (validate_rating (Body.rating b));
    intros H; inversion H; eauto.
Qed.

Lemma serve_GET_store (now : Z) (r : request) (d : Database) :
  is_GET r = true -> snd (serve now r d) = d.
Proof.
  destruct r as [|k|b|k|]; intros Hget; try discriminate; unfold serve.
  - reflexivity.
  - destruct (Company_by_key d (Some k)) as [c|] eqn:Hc.
    + rewrite (get_feedbacks_for_company_found d k c Hc). reflexivity.
    + rewrite (get_feedbacks_for_company_missing d k Hc). reflexivity.
  - destruct (Company_by_key d (Some k)) as [c|] eqn:Hc.
    + rewrite (get_company_reputation_found d k c Hc). reflexivity.
    + rewrite (get_company_reputation_missing d k Hc). reflexivity.
  - reflexivity.
Qed.

Lemma serve_GET_clock (now now' : Z) (r : request) (d : Database) :
  is_GET r = true -> serve now r d = serve now' r d.
Proof. destruct r; intros H; try discriminate; reflexivity. Qed.

Lemma run_GET_store (reads : list (Z * request)) (d : Database) :
  forallb (fun x => is_GET (snd x)) reads = true -> run reads d = d.
Proof.
  induction reads as [|[now r] reads IH]; intros H; [reflexivity|].
  cbn [forallb snd] in H. apply andb_true_iff in H. destruct H as [Hr Hrest].
  cbn [run]. rewrite (serve_GET_store now r d Hr). apply IH, Hrest.
Qed.

(** A request leaves the store as it is or appends one validated row
    whose company exists. *)
Lemma serve_store (now : Z) (r : request) (d : Database) :
  snd (serve now r d) = d
  \/ exists row,
      snd (serve now r d) = insert_Feedback row d
      /\ rating_ok (Feedback.rating row) = true
      /\ resolves d (Feedback.company_id row) = true.
Proof.
  destruct (is_GET r) eqn:Hget.
  - left. apply serve_GET_store, Hget.
  - destruct r as [|k|b|k|]; try discriminate.
    rewrite serve_POST_feedbacks.
    destruct (validate_FeedbackCreate b) as [fd|e] eqn:Hv.
    + apply validate_FeedbackCreate_Return in Hv.
      destruct Hv as (_ & _ & Hr & _ & _).
      destruct (Company_by_key d (FeedbackCreate.company_id fd)) eqn:Hc.
      * right. exists (new_row fd now d). cbn [snd].
        split; [reflexivity|]. split; [exact Hr|].
        unfold resolves, new_row. cbn [Feedback.company_id].
        rewrite Hc. reflexivity.
      * left. reflexivity.
    + left. destruct e; reflexivity.
Qed.

Lemma serve_companies (now : Z) (r : request) (d : Database) :
  companies (snd (serve now r d)) = companies d.
Proof.
  destruct (serve_store now r d) as [->|(row & -> & _)]; reflexivity.
Qed.

Lemma resolves_companies (d d' : Database) (ident : option Z) :
  companies d' = companies d -> resolves d' ident = resolves d ident.
Proof.
  intros H. unfold resolves, Company_by_key. rewrite H. reflexivity.
Qed.

Lemma serve_ratings_valid (now : Z) (r : request) (d : Database) :
  ratings_valid d -> ratings_valid (snd (serve now r d)).
Proof.
  unfold ratings_valid. intros Hd.
  destruct (serve_store now r d) as [->|(row & -> & Hr & _)]; trivial.
  cbn [insert_Feedback feedbacks]. rewrite forallb_app, Hd. cbn. rewrite Hr.
  reflexivity.
Qed.

Lemma serve_references (now : Z) (r : request) (d : Database) :
  references_existing_company d ->
  references_existing_company (snd (serve now r d)).
Proof.
  unfold references_existing_company. intros Hd.
  destruct (serve_store now r d) as [->|(row & -> & _ & Hc)]; trivial.
  cbn [insert_Feedback feedbacks]. rewrite forallb_app.
  apply andb_true_iff. split.
  - rewrite forallb_forall in *. intros f Hf.
    rewrite (resolves_companies d); [apply Hd, Hf|reflexivity].
  - cbn [forallb]. rewrite (resolves_companies d); [|reflexivity].
    rewrite Hc. reflexivity.
Qed.

Lemma run_invariant (P : Database -> Prop) :
  (forall now r d, P d -> P (snd (serve now r d))) ->
  forall trace d, P d -> P (run trace d).
Proof.
  intros Hstep. induction trace as [|[now r] trace IH]; intros d Hd.
  - exact Hd.
  - cbn [run]. apply IH, Hstep, Hd.
Qed.

Lemma reachable_ratings_valid (d : Database) : reachable d -> ratings_valid d.
Proof.
  intros [trace ->]. apply (run_invariant ratings_valid).
  - intros now r d. apply serve_ratings_valid.
  - reflexivity.
Qed.

Lemma reachable_references (d : Database) :
  reachable d -> references_existing_company d.
Proof.
  intros [trace ->]. apply (run_invariant references_existing_company).
  - intros now r d. apply serve_references.
  - reflexivity.
Qed.

(** The reputation of a company that exists, ratings validated. *)
Lemma reputation_returns (now : Z) (d : Database) (k : Z) (c : Company.t) :
  ratings_valid d -> Company_by_key d (Some k) = Some c ->
  let n := len (ratings_of d k) in
  exists avg,
    serve now (GET_company_reputation k) d
    = ({| status_code := 200;
          body := Reputed (Reputation.mk k (Company.name c) avg
                             (len (Feedback_where_company_id d k)) n) |}, d)
    /\ (n = 0 -> avg = None)
    /\ (0 < n ->
        exists q, int_truediv (sum (ratings_of d k)) n = Return q
                  /\ avg = Some (round q 2)).
Proof.
  intros Hv Hc n. unfold serve.
  rewrite (get_company_reputation_found d k c Hc). unfold reputation_of.
  fold n. destruct (Z.gtb_spec n 0) as [Hpos|Hzero].
  - pose proof (sum_bounds (ratings_of d k) (ratings_of_valid d k Hv)) as Hs.
    fold n in Hs.
    destruct (average_rating_spec (sum (ratings_of d k)) n ltac:(lia) Hs)
      as (q & Hq & _).
    rewrite Hq. exists (Some (round q 2)). split; [reflexivity|].
    split; [lia|]. intros _. exists q. split; reflexivity.
  - exists None. split; [reflexivity|]. split; [reflexivity|]. lia.
Qed.


Lemma FeedbackType_of_value_iff (s : string) (t : FeedbackType) :
  FeedbackType_of_value s = Some t <-> s = FeedbackType_value t.
Proof.
  unfold FeedbackType_of_value.
  destruct (String.eqb_spec s "reclamacao") as [->|H1].
  - destruct t; split; intros H; try reflexivity; discriminate.
  - destruct (String.eqb_spec s "elogio") as [->|H2].
    + destruct t; split; intros H; try reflexivity; discriminate.
    + split; [discriminate|]. destruct t; cbn; congruence.
Qed.


Lemma validate_type_rejects (b : Body.t) :
  validate_type (Body.type b) = None ->
  exists fields,
    In "type" fields
    /\ validate_FeedbackCreate b = Raise (ValidationError fields).
Proof.
  intros H. unfold validate_FeedbackCreate. rewrite H.
  destruct (validate_rating (Body.rating b)); eexists; split;
    try reflexivity; cbn; auto.
Qed.

End Handlers.

(** ** The specification's claims *)

(** C1.  For a company that exists, in a store whose ratings are
    validated, the reputation is returned with status 200 and the store
    is left as it was.  With [n] the number of ratings of the company:
    when [n = 0] the average is absent; when [n > 0] it is Python's
    [round(sum(ratings) / n, 2)], the division raising nothing, and (for
    fewer than 2^43 ratings) that float is [K / 100] for an integer [K]
    nearest to 100 times the exact mean, i.e. the mean rounded to two
    decimals.  Both counts are [n].  For the ratings [4, 5, 3] the
    average is the float 4.0 and the counts are 3. *)
Theorem reputation_average_rating (now : Z) (d : Database) (k : Z)
  (c : Company.t) :
  ratings_valid d -> Company_by_key d (Some k) = Some c ->
  let ratings := ratings_of d k in
  let n := len ratings in
  exists avg,
    serve now (GET_company_reputation k) d
    = ({| status_code := 200;
          body := Reputed (Reputation.mk k (Company.name c) avg n n) |}, d)
    /\ (n = 0 -> avg = None)
    /\ (0 < n ->
        exists q,
          int_truediv (sum ratings) n = Return q
          /\ avg = Some (round q 2)
          /\ (n < 2 ^ 43 ->
              exists K, - n <= 2 * (K * n - 100 * sum ratings) <= n
                        /\ int_truediv K 100 = Return (round q 2)))
    /\ (ratings = [4; 5; 3] -> avg = Some four /\ n = 3).
Proof.
  intros Hv Hc ratings n.
  destruct (reputation_returns now d k c Hv Hc) as (avg & Heq & Hzero & Hpos).
  fold ratings in Heq, Hzero, Hpos. fold n in Heq, Hzero, Hpos.
  replace (len (Feedback_where_company_id d k)) with n in Heq
    by (unfold n, ratings, ratings_of; apply len_map).
  exists avg. split; [exact Heq|]. split; [exact Hzero|]. split.
  - intros Hn. destruct (Hpos Hn) as (q & Hq & Havg).
    exists q. split; [exact Hq|]. split; [exact Havg|]. intros Hsmall.
    pose proof (sum_bounds ratings (ratings_of_valid d k Hv)) as Hs.
    fold n in Hs.
    destruct (average_rating_spec (sum ratings) n Hn Hs) as (q' & Hq' & HK).
    rewrite Hq in Hq'. injection Hq' as <-.
    destruct (HK Hsmall) as (K & _ & Hnear & Hdiv).
    exists K. split; assumption.
  - intros H453. assert (Hn : n = 3) by (unfold n; rewrite H453; reflexivity).
    split; [|exact Hn].
    destruct (Hpos ltac:(lia)) as (q & Hq & ->).
    rewrite Hn, H453 in Hq. vm_compute in Hq. injection Hq as <-.
    reflexivity.
Qed.

Lemma reputation_average_rating_witness :
  fst (serve 0 (GET_company_reputation 2) demo_db)
  = {| status_code := 200;
       body := Reputed (Reputation.mk 2 "Consultoria Beta DB" (Some four) 3 3) |}
  /\ int_truediv 400 100 = Return four.
Proof.
  destruct (reputation_average_rating 0 demo_db 2 beta eq_refl eq_refl)
    as (avg & Heq & _ & Hpos & H453).
  destruct (H453 eq_refl) as [Havg _].
  split; [rewrite Heq, Havg; reflexivity|].
  destruct (Hpos eq_refl) as (q & _ & Hq & HK).
  destruct (HK eq_refl) as (K & Hnear & Hdiv).
  assert (Hn : len (ratings_of demo_db 2) = 3) by reflexivity.
  assert (Hs : sum (ratings_of demo_db 2) = 12) by reflexivity.
  cbv zeta in Hnear. rewrite Hn, Hs in Hnear.
  assert (HK400 : K = 400) by lia.
  rewrite Havg in Hq. injection Hq as Hq.
  rewrite <- HK400, Hq. exact Hdiv.
Defined.

(** How ties fall.  A mean of exactly 3.125 is a float, and [round]
    takes the even neighbour, 3.12.  A mean of 2.675 is not a float: the
    quotient is the float just below it, which rounds to 2.67. *)
Example rounded_mean_tie :
  rounded_mean tie_ratings = int_truediv 312 100.
Proof. vm_compute. reflexivity. Qed.

Example rounded_mean_near_tie :
  sum near_tie_ratings = 107 /\ len near_tie_ratings = 40
  /\ rounded_mean near_tie_ratings = int_truediv 267 100.
Proof. vm_compute. repeat split. Qed.

(** C2.  For a company that exists, ratings validated, the reputation
    is returned and its two counts, the number of the company's rows
    (one query) and the number of non-null values among their ratings
    (another query, filtered), are equal. *)
Theorem reputation_counts_equal (now : Z) (d : Database) (k : Z)
  (c : Company.t) :
  ratings_valid d -> Company_by_key d (Some k) = Some c ->
  exists rep,
    serve now (GET_company_reputation k) d
    = ({| status_code := 200; body := Reputed rep |}, d)
    /\ Reputation.total_feedbacks rep
       = len (Feedback_where_company_id d k)
    /\ Reputation.feedback_with_rating_count rep
       = len (not_None (map (fun f => Some (Feedback.rating f))
                          (Feedback_where_company_id d k)))
    /\ Reputation.total_feedbacks rep
       = Reputation.feedback_with_rating_count rep.
Proof.
  intros Hv Hc.
  destruct (reputation_returns now d k c Hv Hc) as (avg & Heq & _).
  eexists. split; [exact Heq|]. cbn [Reputation.total_feedbacks
    Reputation.feedback_with_rating_count].
  rewrite not_None_map_Some. unfold ratings_of. rewrite len_map.
  repeat split.
Qed.

Lemma reputation_counts_equal_witness :
  exists rep,
    body (fst (serve 0 (GET_company_reputation 2) demo_db)) = Reputed rep
    /\ Reputation.total_feedbacks rep = 3
    /\ Reputation.feedback_with_rating_count rep = 3.
Proof.
  destruct (reputation_counts_equal 0 demo_db 2 beta eq_refl eq_refl)
    as (rep & Heq & Htotal & Hcount & _).
  exists rep. rewrite Heq, Htotal, Hcount. repeat split.
Defined.

(** C3.  A creation request whose [company_id] resolves to no company
    is never stored: the feedback table is as before.  When the id is
    null or fits in 64 bits the handler raises the 404 [HTTPException]
    with the message naming the id, and every body validated to this
    request is answered that 404.  When the id does not fit in 64 bits
    the lookup itself fails: the handler raises [OverflowError] and the
    answer is 500, not 404. *)
Theorem create_feedback_unknown_company (now : Z) (d : Database)
  (feedback_data : FeedbackCreate.t) :
  Company_by_key d (FeedbackCreate.company_id feedback_data) = None ->
  (bindable (FeedbackCreate.company_id feedback_data) = true ->
   with_session (create_feedback feedback_data now) d
   = (Raise (HTTPException HTTP_404_NOT_FOUND
               (create_detail (FeedbackCreate.company_id feedback_data))), d)
   /\ forall b,
       validate_FeedbackCreate b = Return feedback_data ->
       serve now (POST_feedbacks b) d
       = (not_found (create_detail (FeedbackCreate.company_id feedback_data)),
          d))
  /\ (bindable (FeedbackCreate.company_id feedback_data) = false ->
      with_session (create_feedback feedback_data now) d
      = (Raise OverflowError, d)
      /\ forall b,
          validate_FeedbackCreate b = Return feedback_data ->
          serve now (POST_feedbacks b) d = (internal_server_error, d))
  /\ forall b,
      validate_FeedbackCreate b = Return feedback_data ->
      feedbacks (snd (serve now (POST_feedbacks b) d)) = feedbacks d.
Proof.
  intros Hc.
  pose proof (create_feedback_missing d feedback_data now Hc) as Hh.
  unfold lookup_failure in Hh.
  split; [|split].
  - intros Hb. rewrite Hb in Hh. split; [exact Hh|].
    intros b Hv. rewrite serve_POST_feedbacks, Hv, Hc, Hb. reflexivity.
  - intros Hb. rewrite Hb in Hh. split; [exact Hh|].
    intros b Hv. rewrite serve_POST_feedbacks, Hv, Hc, Hb. reflexivity.
  - intros b Hv. rewrite serve_POST_feedbacks, Hv, Hc. reflexivity.
Qed.

Lemma create_feedback_unknown_company_witness :
  serve 20 (POST_feedbacks (demo_body 5 9)) demo_db
  = (not_found "Empresa com ID 9 não encontrada.", demo_db)
  /\ serve 20 (POST_feedbacks (demo_body 5 (2 ^ 63))) demo_db
     = (internal_server_error, demo_db).
Proof.
  split.
  - destruct (create_feedback_unknown_company 20 demo_db
                (FeedbackCreate.mk ELOGIO 5 None (Some 9)) eq_refl)
      as ([_ Hserve] & _); [reflexivity|].
    apply (Hserve (demo_body 5 9) eq_refl).
  - destruct (create_feedback_unknown_company 20 demo_db
                (FeedbackCreate.mk ELOGIO 5 None (Some (2 ^ 63))) eq_refl)
      as (_ & [_ Hserve] & _); [reflexivity|].
    apply (Hserve (demo_body 5 (2 ^ 63)) eq_refl).
Defined.

(** C4.  For a company that exists and has no feedback row, the
    reputation is: no average, both counts 0. *)
Theorem reputation_no_feedback (now : Z) (d : Database) (k : Z)
  (c : Company.t) :
  Company_by_key d (Some k) = Some c ->
  (forall f, In f (feedbacks d) -> Feedback.company_id f <> Some k) ->
  serve now (GET_company_reputation k) d
  = ({| status_code := 200;
        body := Reputed (Reputation.mk k (Company.name c) None 0 0) |}, d).
Proof.
  intros Hc Hnone.
  assert (Hrows : Feedback_where_company_id d k = []).
  { unfold Feedback_where_company_id.
    induction (feedbacks d) as [|f rows IH]; [reflexivity|].
    cbn [filter]. pose proof (Hnone f (or_introl eq_refl)) as Hf.
    unfold sql_eq at 1. destruct (Feedback.company_id f) as [v|].
    - destruct (Z.eqb_spec v k) as [->|_]; [congruence|].
      apply IH. intros g Hg. apply Hnone. right. exact Hg.
    - apply IH. intros g Hg. apply Hnone. right. exact Hg. }
  unfold serve. rewrite (get_company_reputation_found d k c Hc).
  unfold reputation_of, ratings_of. rewrite Hrows. reflexivity.
Qed.

Lemma reputation_no_feedback_witness :
  serve 0 (GET_company_reputation 1) demo_db
  = ({| status_code := 200;
        body := Reputed (Reputation.mk 1 "Empresa Alpha DB" None 0 0) |},
     demo_db).
Proof.
  apply (reputation_no_feedback 0 demo_db 1 alpha eq_refl).
  intros f Hf.
  repeat (destruct Hf as [<-|Hf]; [discriminate|]). destruct Hf.
Defined.

(** C5.  For an id that resolves to no company, the feedback listing
    and the reputation leave the store as it is and answer alike: 404
    with the not-found message when the id fits in 64 bits, never an
    empty list or a reputation; 500 when it does not fit, the lookup
    itself raising [OverflowError]. *)
Theorem unknown_company_not_found (now : Z) (d : Database) (k : Z) :
  Company_by_key d (Some k) = None ->
  (is_int64 k = true ->
   serve now (GET_company_feedbacks k) d
   = (not_found "Empresa não encontrada", d)
   /\ serve now (GET_company_reputation k) d
      = (not_found "Empresa não encontrada", d))
  /\ (is_int64 k = false ->
      serve now (GET_company_feedbacks k) d = (internal_server_error, d)
      /\ serve now (GET_company_reputation k) d = (internal_server_error, d)).
Proof.
  intros Hc. unfold serve.
  rewrite (get_feedbacks_for_company_missing d k Hc).
  rewrite (get_company_reputation_missing d k Hc).
  unfold lookup_failure, bindable.
  split; intros Hk; rewrite Hk; split; reflexivity.
Qed.

Lemma unknown_company_not_found_witness :
  (status_code (fst (serve 0 (GET_company_feedbacks 7) demo_db)) = 404
   /\ status_code (fst (serve 0 (GET_company_reputation 7) demo_db)) = 404)
  /\ (status_code (fst (serve 0 (GET_company_feedbacks (2 ^ 63)) demo_db)) = 500
      /\ status_code (fst (serve 0 (GET_company_reputation (2 ^ 63)) demo_db))
         = 500).
Proof.
  split.
  - destruct (unknown_company_not_found 0 demo_db 7 eq_refl) as [Hin _].
    destruct (Hin eq_refl) as [-> ->]. split; reflexivity.
  - destruct (unknown_company_not_found 0 demo_db (2 ^ 63) eq_refl)
      as [_ Hout].
    destruct (Hout eq_refl) as [-> ->]. split; reflexivity.
Defined.

(** C6.  For a company that exists, the listing answers 200 with a list
    whose members are exactly the stored feedback rows with that
    [company_id]: each of them, and no row of another company. *)
Theorem feedbacks_of_company (now : Z) (d : Database) (k : Z)
  (c : Company.t) :
  Company_by_key d (Some k) = Some c ->
  exists l,
    serve now (GET_company_feedbacks k) d
    = ({| status_code := 200; body := Feedbacks l |}, d)
    /\ forall f, In f l <-> In f (feedbacks d) /\ Feedback.company_id f = Some k.
Proof.
  intros Hc. exists (Feedback_where_company_id d k). split.
  - unfold serve. rewrite (get_feedbacks_for_company_found d k c Hc).
    reflexivity.
  - intros f. unfold Feedback_where_company_id. rewrite filter_In.
    unfold sql_eq. destruct (Feedback.company_id f) as [v|].
    + rewrite Z.eqb_eq. split; intros [H1 H2]; split; congruence.
    + split; intros [H1 H2]; discriminate.
Qed.

Lemma feedbacks_of_company_witness :
  exists l,
    body (fst (serve 0 (GET_company_feedbacks 3) demo_db)) = Feedbacks l
    /\ forall f, In f l
                 <-> In f (feedbacks demo_db) /\ Feedback.company_id f = Some 3.
Proof.
  destruct (feedbacks_of_company 0 demo_db 3 gamma eq_refl)
    as (l & Heq & Hl).
  exists l. rewrite Heq. split; [reflexivity|exact Hl].
Defined.



(** C8.  Every stored feedback names an existing company: this holds in
    every store the service can reach; any request served on a store
    where it holds leaves a store where it holds, each row's
    [company_id] resolving; and a creation request whose [company_id] is
    missing or null is not answered 201 and leaves the store as it was. *)
Theorem feedback_references_company (now : Z) (r : request) (b : Body.t)
  (d : Database) :
  (reachable d -> references_existing_company d)
  /\ (references_existing_company d ->
      references_existing_company (snd (serve now r d))
      /\ forall f, In f (feedbacks (snd (serve now r d))) ->
                   exists c, Company_by_key (snd (serve now r d))
                               (Feedback.company_id f) = Some c)
  /\ (Body.company_id b = None ->
      snd (serve now (POST_feedbacks b) d) = d
      /\ status_code (fst (serve now (POST_feedbacks b) d))
         <> HTTP_201_CREATED).
Proof.
  split; [apply reachable_references|]. split.
  - intros Hd. pose proof (serve_references now r d Hd) as Hd'.
    split; [exact Hd'|].
    intros f Hf. unfold references_existing_company in Hd'.
    rewrite forallb_forall in Hd'. specialize (Hd' f Hf).
    unfold resolves in Hd'.
    destruct (Company_by_key _ _) as [c|]; [eauto|discriminate].
  - intros Hb. rewrite serve_POST_feedbacks.
    destruct (validate_FeedbackCreate b) as [fd|e] eqn:Hv.
    + apply validate_FeedbackCreate_Return in Hv.
      destruct Hv as (_ & _ & _ & _ & Hcid). rewrite Hcid, Hb.
      cbn. split; [reflexivity|]. unfold HTTP_201_CREATED. lia.
    + destruct (validate_FeedbackCreate_exn b e Hv) as [fields ->].
      cbn. split; [reflexivity|]. unfold HTTP_201_CREATED. lia.
Qed.

Lemma feedback_references_company_witness :
  references_existing_company demo_db
  /\ references_existing_company
       (snd (serve 20 (POST_feedbacks (demo_body 2 3)) demo_db))
  /\ snd (serve 20 (POST_feedbacks (Body.mk (Some "elogio") (Some 2) None None))
            demo_db) = demo_db.
Proof.
  destruct (feedback_references_company 20 (POST_feedbacks (demo_body 2 3))
              (Body.mk (Some "elogio") (Some 2) None None) demo_db)
    as (Hreach & Hstep & Hnull).
  split; [apply Hreach; eexists; reflexivity|].
  split; [apply Hstep; reflexivity|]. apply Hnull. reflexivity.
Defined.

(** C9.  [FeedbackType] has exactly two members, RECLAMACAO (complaint)
    and ELOGIO (compliment); a string is accepted as a type exactly when
    it is the value of one of them; and a creation request whose type is
    missing or is no member's value is answered with the validation
    error 422 naming [type], the store as before. *)
Theorem feedback_type_enum :
  (forall t : FeedbackType, t = RECLAMACAO \/ t = ELOGIO)
  /\ RECLAMACAO <> ELOGIO
  /\ (forall s t, FeedbackType_of_value s = Some t <-> s = FeedbackType_value t)
  /\ (forall now d b,
         validate_type (Body.type b) = None ->
         exists fields,
           In "type" fields
           /\ serve now (POST_feedbacks b) d = (unprocessable fields, d)).
Proof.
  split; [intros []; auto|]. split; [discriminate|].
  split; [apply FeedbackType_of_value_iff|].
  intros now d b Ht.
  destruct (validate_type_rejects b Ht) as (fields & Hin & Hval).
  exists fields. split; [exact Hin|].
  rewrite serve_POST_feedbacks, Hval. reflexivity.
Qed.

Lemma feedback_type_enum_witness :
  exists fields,
    serve 20 (POST_feedbacks (Body.mk (Some "sugestao") (Some 4) None (Some 1)))
      demo_db
    = (unprocessable fields, demo_db).
Proof.
  destruct feedback_type_enum as (_ & _ & _ & Hrej).
  destruct (Hrej 20 demo_db
              (Body.mk (Some "sugestao") (Some 4) None (Some 1)) eq_refl)
    as (fields & _ & Heq).
  exists fields. exact Heq.
Defined.

(** C10.  A GET request leaves the store as it was, and asked again,
    at any later time and after any number of other GET requests, it
    gets the same response. *)
Theorem GET_read_only (now : Z) (r : request) (d : Database) :
  is_GET r = true ->
  snd (serve now r d) = d
  /\ forall reads now',
      forallb (fun x => is_GET (snd x)) reads = true ->
      serve now' r (run reads (snd (serve now r d))) = serve now r d.
Proof.
  intros Hget. pose proof (serve_GET_store now r d Hget) as Hstore.
  split; [exact Hstore|]. intros reads now' Hreads.
  rewrite Hstore, (run_GET_store reads d Hreads).
  apply serve_GET_clock, Hget.
Qed.

Lemma GET_read_only_witness :
  snd (serve 0 (GET_company_reputation 2) demo_db) = demo_db
  /\ serve 5 (GET_company_reputation 2)
       (run [(1, GET_companies); (2, GET_company_feedbacks 2)]
          (snd (serve 0 (GET_company_reputation 2) demo_db)))
     = serve 0 (GET_company_reputation 2) demo_db.
Proof.
  destruct (GET_read_only 0 (GET_company_reputation 2) demo_db eq_refl)
    as [Hs Hagain].
  split; [exact Hs|].
  apply (Hagain [(1, GET_companies); (2, GET_company_feedbacks 2)] 5 eq_refl).
Defined.

(** ** Further properties of the handlers *)

Section Store.

(** A request leaves the store as it is, or is a validated creation for
    a company that exists and appends the row made from it. *)
Lemma serve_effect (now : Z) (r : request) (d : Database) :
  snd (serve now r d) = d
  \/ exists b fd c,
      r = POST_feedbacks b
      /\ validate_FeedbackCreate b = Return fd
      /\ Company_by_key d (FeedbackCreate.company_id fd) = Some c
      /\ serve now r d
         = (created (new_row fd now d), insert_Feedback (new_row fd now d) d).
Proof.
  destruct (is_GET r) eqn:Hget.
  - left. apply serve_GET_store, Hget.
  - destruct r as [|k|b|k|]; try discriminate.
    rewrite serve_POST_feedbacks.
    destruct (validate_FeedbackCreate b) as [fd|e] eqn:Hv.
    + destruct (Company_by_key d (FeedbackCreate.company_id fd)) as [c|] eqn:Hc.
      * right. exists b, fd, c. repeat split; trivial.
      * left. reflexivity.
    + left. destruct e; reflexivity.
Qed.

Lemma run_companies (trace : list (Z * request)) (d : Database) :
  companies (run trace d) = companies d.
Proof.
  revert d. induction trace as [|[now r] trace IH]; intros d; [reflexivity|].
  cbn [run]. rewrite IH. apply serve_companies.
Qed.

Lemma reachable_companies (d : Database) :
  reachable d -> companies d = seeded.
Proof. intros [trace ->]. rewrite run_companies. reflexivity. Qed.



Lemma key_of_new_row (fd : FeedbackCreate.t) (now : Z) (d : Database) :
  key_of (new_row fd now d) = next_id (feedbacks d).
Proof. reflexivity. Qed.

Lemma keys_unique_insert (fd : FeedbackCreate.t) (now : Z) (d : Database) :
  keys_unique d -> keys_unique (insert_Feedback (new_row fd now d) d).
Proof.
  intros [Hsome Hnodup]. unfold keys_unique, insert_Feedback.
  cbn [feedbacks]. split.
  - apply Forall_app. split; [exact Hsome|].
    constructor; [discriminate|constructor].
  - rewrite map_app. cbn [map]. rewrite key_of_new_row.
    apply NoDup_app; [exact Hnodup|repeat constructor; intros []|].
    intros x Hx [<-|[]]. apply in_map_iff in Hx.
    destruct Hx as (f & Hf & Hin). apply key_lt_next_id in Hin. lia.
Qed.

Lemma serve_keys_unique (now : Z) (r : request) (d : Database) :
  keys_unique d -> keys_unique (snd (serve now r d)).
Proof.
  intros Hd.
  destruct (serve_effect now r d) as [->|(b & fd & c & _ & _ & _ & ->)];
    [exact Hd|].
  apply keys_unique_insert, Hd.
Qed.

End Store.

Section Mean.

(** The rounded float mean is [K / 100] for an integer [K] from 100 to
    500, however many ratings there are. *)
Lemma rounded_mean_range (p n : Z) :
  0 < n -> n <= p <= 5 * n ->
  exists q K,
    int_truediv p n = Return q
    /\ 100 <= K <= 500
    /\ int_truediv K 100 = Return (round q 2).
Proof.
  intros Hn Hp.
  destruct (int_truediv_mean p n Hn Hp) as (M & E & Hdiv & HM & HE & Hnear).
  exists (S754_finite false M E).
  destruct E as [|E|E]; try lia.
  set (K := round_half_even (Zpos M * 10 ^ 2) (2 ^ Zpos E)).
  exists K. split; [exact Hdiv|].
  assert (HD : 0 < 2 ^ Zpos E) by (apply Z.pow_pos_nonneg; lia).
  destruct (round_half_even_near (Zpos M * 10 ^ 2) (2 ^ Zpos E) HD)
    as [HK _].
  fold K in HK. change (10 ^ 2) with 100 in HK.
  change (- Zneg E) with (Zpos E) in Hnear.
  assert (HMlo : 2 * 2 ^ Zpos E - 1 <= 2 * Zpos M).
  { destruct (Z_le_gt_dec (2 * 2 ^ Zpos E - 1) (2 * Zpos M)) as [|Hgt];
      trivial. exfalso.
    assert ((2 * Zpos M) * n <= (2 * 2 ^ Zpos E - 2) * n)
      by (apply Z.mul_le_mono_nonneg_r; lia).
    assert (n * 2 ^ Zpos E <= p * 2 ^ Zpos E)
      by (apply Z.mul_le_mono_nonneg_r; lia).
    lia. }
  assert (HMhi : 2 * Zpos M <= 10 * 2 ^ Zpos E + 1).
  { destruct (Z_le_gt_dec (2 * Zpos M) (10 * 2 ^ Zpos E + 1)) as [|Hgt];
      trivial. exfalso.
    assert ((10 * 2 ^ Zpos E + 2) * n <= (2 * Zpos M) * n)
      by (apply Z.mul_le_mono_nonneg_r; lia).
    assert (p * 2 ^ Zpos E <= 5 * n * 2 ^ Zpos E)
      by (apply Z.mul_le_mono_nonneg_r; lia).
    lia. }
  assert (HKr : 100 <= K <= 500).
  { assert (Hcases : Zpos E = 50 \/ Zpos E = 51 \/ Zpos E = 52 \/ Zpos E = 53)
      by lia.
    clear Hnear. clearbody K.
    destruct Hcases as [H | [H | [H | H]]]; rewrite H in *;
      eval_pow2; lia. }
  split; [exact HKr|].
  destruct (int_truediv_mean K 100 ltac:(lia) ltac:(lia))
    as (M' & E' & Hdiv' & _).
  unfold round, scaled. fold K. change (10 ^ 2) with 100.
  unfold int_truediv in *. clear HK Hdiv.
  destruct K as [|k|k]; try lia.
  change (float_of_int (Zpos k)) with (S754_finite false k 0) in *.
  change (100 =? 0) with false in *. cbv iota in *.
  destruct (SFdiv prec emax (S754_finite false k 0) (float_of_int 100));
    solve [reflexivity | discriminate].
Qed.

(** The float quotient of [r * n] by [n] is the float [r], for a rating
    [r] from 1 to 5, and [round] leaves it as it is. *)
Lemma int_truediv_uniform (r n : Z) :
  0 < n -> 1 <= r <= 5 ->
  exists q,
    int_truediv r 1 = Return q
    /\ int_truediv (r * n) n = Return q
    /\ round q 2 = q.
Proof.
  intros Hn Hr.
  assert (Hp : n <= r * n <= 5 * n) by nia.
  destruct (int_truediv_mean (r * n) n Hn Hp)
    as (M & E & Hdiv & HM & HE & Hnear).
  rewrite Hdiv.
  assert (HMr : Zpos M = r * 2 ^ (- E)).
  { assert (HD : 0 < 2 ^ (- E)) by (apply Z.pow_pos_nonneg; lia).
    destruct (Z.lt_trichotomy (Zpos M) (r * 2 ^ (- E))) as [Hlt|[Heq|Hgt]];
      trivial; exfalso.
    - assert ((Zpos M + 1) * n <= r * 2 ^ (- E) * n)
        by (apply Z.mul_le_mono_nonneg_r; lia). lia.
    - assert ((r * 2 ^ (- E) + 1) * n <= Zpos M * n)
        by (apply Z.mul_le_mono_nonneg_r; lia). lia. }
  clear Hnear Hdiv Hp.
  assert (Hcases : (r = 1 \/ r = 2 \/ r = 3 \/ r = 4 \/ r = 5)
                   /\ (E = -53 \/ E = -52 \/ E = -51 \/ E = -50)) by lia.
  destruct Hcases as [[-> | [-> | [-> | [-> | ->]]]] [-> | [-> | [-> | ->]]]];
    eval_pow2; try lia.
  all: match goal with
       | H : Zpos ?P = ?v |- _ =>
           let m := eval vm_compute in (Z.to_pos v) in
           assert (P = m) by lia; subst P
       end.
  all: eexists; split; [vm_compute; reflexivity|].
  all: split; vm_compute; reflexivity.
Qed.

End Mean.

Section Composition.

Lemma serve_reputation_found (now : Z) (d : Database) (k : Z) (c : Company.t) :
  Company_by_key d (Some k) = Some c ->
  serve now (GET_company_reputation k) d
  = (respond 200 Reputed (reputation_of d k c), d).
Proof.
  intros Hc. unfold serve.
  rewrite (get_company_reputation_found d k c Hc). reflexivity.
Qed.

Lemma serve_feedbacks_found (now : Z) (d : Database) (k : Z) (c : Company.t) :
  Company_by_key d (Some k) = Some c ->
  serve now (GET_company_feedbacks k) d
  = ({| status_code := 200;
        body := Feedbacks (Feedback_where_company_id d k) |}, d).
Proof.
  intros Hc. unfold serve.
  rewrite (get_feedbacks_for_company_found d k c Hc). reflexivity.
Qed.








(** Sums do not depend on the order of the ratings. *)
Lemma fold_left_add_shift (l : list Z) :
  forall a, fold_left Z.add l a = a + fold_left Z.add l 0.
Proof.
  induction l as [|x l IH]; intros a; cbn [fold_left]; [lia|].
  rewrite (IH (a + x)), (IH (0 + x)). lia.
Qed.

Lemma sum_cons (x : Z) (l : list Z) : sum (x :: l) = x + sum l.
Proof. unfold sum. cbn [fold_left]. rewrite fold_left_add_shift. lia. Qed.

Lemma sum_Permutation (l l' : list Z) : Permutation l l' -> sum l = sum l'.
Proof.
  induction 1 as [|x l l' _ IH|x y l|l l' l'' _ IH1 _ IH2].
  - reflexivity.
  - rewrite !sum_cons, IH. reflexivity.
  - rewrite !sum_cons. lia.
  - congruence.
Qed.

Lemma len_Permutation {A : Type} (l l' : list A) :
  Permutation l l' -> len l = len l'.
Proof. intros H. unfold len. rewrite (Permutation_length H). reflexivity. Qed.

Lemma sum_uniform (r : Z) (l : list Z) :
  (forall x, In x l -> x = r) -> sum l = r * len l.
Proof.
  induction l as [|x l IH]; intros H.
  - unfold sum, len. cbn [fold_left List.length]. lia.
  - rewrite sum_cons, IH by (intros y Hy; apply H; right; exact Hy).
    rewrite (H x (or_introl eq_refl)). unfold len. cbn [List.length]. lia.
Qed.

Lemma len_pos {A : Type} (l : list A) : l <> [] -> 0 < len l.
Proof. destruct l; [congruence|]. intros _. unfold len. cbn [List.length]. lia. Qed.

(** One key, one row. *)
Lemma NoDup_key_inj (l : list Feedback.t) :
  NoDup (map key_of l) ->
  forall f g, In f l -> In g l -> key_of f = key_of g -> f = g.
Proof.
  induction l as [|x l IH]; intros Hnd f g Hf Hg Hk; [destruct Hf|].
  cbn [map] in Hnd. inversion Hnd as [|? ? Hnotin Hnd']; subst.
  destruct Hf as [<-|Hf], Hg as [<-|Hg]; trivial.
  - exfalso. apply Hnotin. rewrite Hk. apply in_map, Hg.
  - exfalso. apply Hnotin. rewrite <- Hk. apply in_map, Hf.
  - apply IH; assumption.
Qed.

Lemma reachable_keys_unique (d : Database) : reachable d -> keys_unique d.
Proof.
  intros [trace ->]. apply (run_invariant keys_unique).
  - intros now r d. apply serve_keys_unique.
  - split; constructor.
Qed.

Lemma run_append_only (trace : list (Z * request)) :
  forall d, exists added,
    feedbacks (run trace d) = (feedbacks d ++ added)%list
    /\ (List.length added <= List.length trace)%nat.
Proof.
  induction trace as [|[now r] trace IH]; intros d.
  - exists []. rewrite app_nil_r. split; [reflexivity|cbn; lia].
  - cbn [run]. destruct (IH (snd (serve now r d))) as (added & Heq & Hlen).
    destruct (serve_effect now r d) as [Hsame|(b & fd & c & _ & _ & _ & Hins)].
    + rewrite Hsame in Heq |- *. exists added. split; [exact Heq|].
      cbn [List.length]. lia.
    + rewrite Hins in Heq |- *. cbn [snd insert_Feedback feedbacks] in Heq |- *.
      exists (new_row fd now d :: added). rewrite Heq, <- app_assoc.
      split; [reflexivity|]. cbn [List.length]. lia.
Qed.

End Composition.

(** X1.  Starting the application again changes nothing: [lifespan] is
    idempotent, never touches the feedback table, leaves a non-empty
    company table as it is, and so leaves every reachable store as it
    is (the seed companies are not added twice). *)
Theorem lifespan_restart (d : Database) :
  lifespan (lifespan d) = lifespan d
  /\ feedbacks (lifespan d) = feedbacks d
  /\ (companies d <> [] -> lifespan d = d)
  /\ (reachable d -> lifespan d = d).
Proof.
  assert (Hne : companies d <> [] -> lifespan d = d).
  { unfold lifespan. destruct (companies d); [congruence|reflexivity]. }
  split; [|split; [|split]].
  - unfold lifespan at 1.
    destruct (companies (lifespan d)) eqn:Hl; [|reflexivity].
    unfold lifespan in Hl. destruct (companies d) eqn:Hd.
    + cbn [companies] in Hl. discriminate.
    + rewrite Hd in Hl. discriminate.
  - unfold lifespan. destruct (companies d); reflexivity.
  - exact Hne.
  - intros Hr. apply Hne. rewrite (reachable_companies d Hr). discriminate.
Qed.

Lemma lifespan_restart_witness : lifespan demo_db = demo_db.
Proof.
  destruct (lifespan_restart demo_db) as (_ & _ & _ & Hr).
  apply Hr. exists demo_trace. reflexivity.
Defined.

(** X2.  No request creates, changes or deletes a company: the company
    table after one request, and after any sequence of requests, is the
    one before, and every key resolves as it did. *)
Theorem company_table_fixed (trace : list (Z * request)) (now : Z)
  (r : request) (d : Database) :
  companies (snd (serve now r d)) = companies d
  /\ companies (run trace d) = companies d
  /\ forall ident,
      Company_by_key (run trace d) ident = Company_by_key d ident.
Proof.
  split; [apply serve_companies|]. split; [apply run_companies|].
  intros ident. unfold Company_by_key. rewrite run_companies. reflexivity.
Qed.

(** X3.  In every reachable store, GET /companies answers 200 with
    exactly the three seeded companies, in their order. *)
Theorem get_companies_seeded (now : Z) (d : Database) :
  reachable d ->
  serve now GET_companies d
  = ({| status_code := 200; body := Companies seeded |}, d).
Proof.
  intros Hr. unfold serve, with_session, get_companies, bind, select_Company,
    ret, get_session. cbn [db]. rewrite (reachable_companies d Hr).
  reflexivity.
Qed.

Lemma get_companies_seeded_witness :
  fst (serve 0 GET_companies demo_db)
  = {| status_code := 200; body := Companies [alpha; beta; gamma] |}.
Proof.
  rewrite (get_companies_seeded 0 demo_db); [reflexivity|].
  exists demo_trace. reflexivity.
Defined.





(** X6.  In every reachable store each feedback has an id and no two
    feedbacks share one. *)
Theorem feedback_ids_unique (d : Database) :
  reachable d ->
  (forall f, In f (feedbacks d) -> Feedback.id f <> None)
  /\ forall f g, In f (feedbacks d) -> In g (feedbacks d) ->
                 Feedback.id f = Feedback.id g -> f = g.
Proof.
  intros Hr. destruct (reachable_keys_unique d Hr) as [Hsome Hnodup].
  rewrite Forall_forall in Hsome. split; [exact Hsome|].
  intros f g Hf Hg Hid. apply (NoDup_key_inj (feedbacks d) Hnodup); trivial.
  unfold key_of. rewrite Hid. reflexivity.
Qed.

Lemma feedback_ids_unique_witness :
  Forall (fun f => Feedback.id f <> None) (feedbacks demo_db)
  /\ Forall (fun f => Forall (fun g => Feedback.id f = Feedback.id g -> f = g)
                       (feedbacks demo_db))
       (feedbacks demo_db).
Proof.
  destruct (feedback_ids_unique demo_db) as [Hsome Hinj].
  - exists demo_trace. reflexivity.
  - split; apply Forall_forall; intros f Hf; [exact (Hsome f Hf)|].
    apply Forall_forall. intros g Hg. exact (Hinj f g Hf Hg).
Defined.

(** X7.  The feedback table only grows: after any sequence of
    requests it is the table before followed by at most one new row
    per request, so no stored row is ever changed or removed. *)
Theorem feedback_append_only (trace : list (Z * request)) (d : Database) :
  exists added,
    feedbacks (run trace d) = (feedbacks d ++ added)%list
    /\ (List.length added <= List.length trace)%nat
    /\ forall f, In f (feedbacks d) -> In f (feedbacks (run trace d)).
Proof.
  destruct (run_append_only trace d) as (added & Heq & Hlen).
  exists added. split; [exact Heq|]. split; [exact Hlen|].
  intros f Hf. rewrite Heq. apply in_or_app. left. exact Hf.
Qed.





(** X10.  The reputation depends on the ratings only up to their
    order: two stores in which the key resolves alike and the company's
    ratings are a permutation of each other give the same response. *)
Theorem reputation_order_independent (now now' : Z) (d d' : Database)
  (k : Z) :
  Company_by_key d' (Some k) = Company_by_key d (Some k) ->
  Permutation (ratings_of d k) (ratings_of d' k) ->
  fst (serve now' (GET_company_reputation k) d')
  = fst (serve now (GET_company_reputation k) d).
Proof.
  intros Hc Hperm. destruct (Company_by_key d (Some k)) as [c|] eqn:Hd.
  - rewrite (serve_reputation_found now' d' k c Hc).
    rewrite (serve_reputation_found now d k c Hd).
    unfold reputation_of. cbn [fst].
    rewrite <- (len_map Feedback.rating (Feedback_where_company_id d' k)).
    rewrite <- (len_map Feedback.rating (Feedback_where_company_id d k)).
    fold (ratings_of d' k). fold (ratings_of d k).
    rewrite (sum_Permutation _ _ Hperm), (len_Permutation _ _ Hperm).
    reflexivity.
  - unfold serve.
    rewrite (get_company_reputation_missing d' k Hc).
    rewrite (get_company_reputation_missing d k Hd). reflexivity.
Qed.

Lemma reputation_order_independent_witness :
  fst (serve 0 (GET_company_reputation 2) demo_db_reordered)
  = fst (serve 0 (GET_company_reputation 2) demo_db).
Proof.
  apply (reputation_order_independent 0 0 demo_db demo_db_reordered 2 eq_refl).
  change (Permutation [4; 5; 3] [3; 5; 4]).
  apply perm_trans with [4; 3; 5]; [apply perm_skip, perm_swap|].
  apply perm_trans with [3; 4; 5]; [apply perm_swap|].
  apply perm_skip, perm_swap.
Defined.

(** X11.  For a company with at least one feedback (ratings
    validated), whatever their number, the average is the float
    [K / 100] for an integer [K] from 100 to 500: it lies between 1.00
    and 5.00 and nothing is raised. *)
Theorem average_rating_range (now : Z) (d : Database) (k : Z)
  (c : Company.t) :
  ratings_valid d -> Company_by_key d (Some k) = Some c ->
  ratings_of d k <> [] ->
  exists rep avg K,
    serve now (GET_company_reputation k) d
    = ({| status_code := 200; body := Reputed rep |}, d)
    /\ Reputation.average_rating rep = Some avg
    /\ 100 <= K <= 500
    /\ int_truediv K 100 = Return avg.
Proof.
  intros Hv Hc Hne. apply len_pos in Hne.
  pose proof (sum_bounds (ratings_of d k) (ratings_of_valid d k Hv)) as Hs.
  destruct (rounded_mean_range (sum (ratings_of d k)) (len (ratings_of d k))
              Hne Hs) as (q & K & Hq & HK & Hround).
  rewrite (serve_reputation_found now d k c Hc). unfold reputation_of.
  destruct (Z.gtb_spec (len (ratings_of d k)) 0) as [_|Hle]; [|lia].
  rewrite Hq. cbn [respond]. eexists. exists (round q 2), K.
  split; [reflexivity|]. cbn [Reputation.average_rating].
  repeat split; trivial; lia.
Qed.

Lemma average_rating_range_witness :
  exists rep avg K,
    fst (serve 0 (GET_company_reputation 3) demo_db)
    = {| status_code := 200; body := Reputed rep |}
    /\ Reputation.average_rating rep = Some avg
    /\ 100 <= K <= 500
    /\ int_truediv K 100 = Return avg.
Proof.
  destruct (average_rating_range 0 demo_db 3 gamma eq_refl eq_refl)
    as (rep & avg & K & Heq & Havg & HK & Hdiv); [discriminate|].
  exists rep, avg, K. rewrite Heq. repeat split; trivial; lia.
Defined.

(** X12.  When every rating of a company equals [r] (from 1 to 5), the
    average is exactly the float [r]: division and rounding lose
    nothing. *)
Theorem uniform_ratings_average (now : Z) (d : Database) (k r : Z)
  (c : Company.t) :
  Company_by_key d (Some k) = Some c ->
  1 <= r <= 5 ->
  ratings_of d k <> [] ->
  (forall x, In x (ratings_of d k) -> x = r) ->
  exists avg,
    int_truediv r 1 = Return avg
    /\ serve now (GET_company_reputation k) d
       = ({| status_code := 200;
             body := Reputed (Reputation.mk k (Company.name c) (Some avg)
                                (len (ratings_of d k))
                                (len (ratings_of d k))) |}, d).
Proof.
  intros Hc Hr Hne Hall. apply len_pos in Hne.
  destruct (int_truediv_uniform r (len (ratings_of d k)) Hne Hr)
    as (q & Hq1 & Hq & Hround).
  exists q. split; [exact Hq1|].
  rewrite (serve_reputation_found now d k c Hc). unfold reputation_of.
  destruct (Z.gtb_spec (len (ratings_of d k)) 0) as [_|Hle]; [|lia].
  rewrite (sum_uniform r _ Hall), Hq, Hround. cbn [respond].
  replace (len (Feedback_where_company_id d k)) with (len (ratings_of d k))
    by (unfold ratings_of; apply len_map).
  reflexivity.
Qed.

Lemma uniform_ratings_average_witness :
  fst (serve 0 (GET_company_reputation 3) uniform_db)
  = {| status_code := 200;
       body := Reputed (Reputation.mk 3 "Varejo Gamma DB" (Some four) 3 3) |}.
Proof.
  destruct (uniform_ratings_average 0 uniform_db 3 4 gamma eq_refl)
    as (avg & Havg & Heq).
  - lia.
  - discriminate.
  - intros x Hx. repeat (destruct Hx as [<-|Hx]; [reflexivity|]). destruct Hx.
  - rewrite Heq. injection Havg as <-. reflexivity.
Defined.



(** X14.  In every reachable store every stored rating is between 1
    and 5. *)
Theorem stored_ratings_in_range (d : Database) :
  reachable d ->
  forall f, In f (feedbacks d) -> 1 <= Feedback.rating f <= 5.
Proof.
  intros Hr f Hf. pose proof (reachable_ratings_valid d Hr) as Hv.
  unfold ratings_valid in Hv. rewrite forallb_forall in Hv.
  apply rating_ok_iff, Hv, Hf.
Qed.

Lemma stored_ratings_in_range_witness :
  Forall (fun f => 1 <= Feedback.rating f <= 5) (feedbacks demo_db).
Proof.
  apply Forall_forall. apply (stored_ratings_in_range demo_db).
  exists demo_trace. reflexivity.
Defined.

(** X15.  The listing and the reputation of a company agree (ratings
    validated): both counts of the reputation are the length of the
    listing, and the average is absent exactly when the listing is
    empty. *)
Theorem reputation_counts_listing (now now' : Z) (d : Database) (k : Z)
  (c : Company.t) :
  ratings_valid d -> Company_by_key d (Some k) = Some c ->
  exists l rep,
    fst (serve now (GET_company_feedbacks k) d)
    = {| status_code := 200; body := Feedbacks l |}
    /\ fst (serve now' (GET_company_reputation k) d)
       = {| status_code := 200; body := Reputed rep |}
    /\ Reputation.total_feedbacks rep = len l
    /\ Reputation.feedback_with_rating_count rep = len l
    /\ (Reputation.average_rating rep = None <-> l = []).
Proof.
  intros Hv Hc.
  destruct (reputation_returns now' d k c Hv Hc) as (avg & Heq & Hzero & Hpos).
  exists (Feedback_where_company_id d k). eexists.
  rewrite (serve_feedbacks_found now d k c Hc), Heq.
  split; [reflexivity|]. split; [reflexivity|].
  cbn [Reputation.total_feedbacks Reputation.feedback_with_rating_count
         Reputation.average_rating].
  unfold ratings_of in *. rewrite len_map in *.
  split; [reflexivity|]. split; [reflexivity|].
  destruct (Feedback_where_company_id d k) as [|f rows] eqn:Hrows.
  - split; [reflexivity|]. intros _. apply Hzero. reflexivity.
  - split; [|discriminate]. intros Havg.
    destruct Hpos as (q & _ & Hq); [unfold len; cbn [List.length]; lia|].
    congruence.
Qed.

Lemma reputation_counts_listing_witness :
  exists l rep,
    fst (serve 0 (GET_company_feedbacks 2) demo_db)
    = {| status_code := 200; body := Feedbacks l |}
    /\ fst (serve 1 (GET_company_reputation 2) demo_db)
       = {| status_code := 200; body := Reputed rep |}
    /\ Reputation.total_feedbacks rep = len l.
Proof.
  destruct (reputation_counts_listing 0 1 demo_db 2 beta eq_refl eq_refl)
    as (l & rep & Hl & Hrep & Htotal & _).
  exists l, rep. repeat split; assumption.
Defined.
